(** * Ingestion and retrieval core of the construction QA system

    A shallow embedding of
      - [knowledge_base/storage/chroma_manager.py]   (ChromaManager),
      - [knowledge_base/builders/pdf_processor.py]   (PDFProcessor),
      - [knowledge_base/retrieval/vector_retriever.py] (VectorRetriever),
    with the third-party collaborators (the Chroma collection, the LangChain
    store, the PDF loader, the text splitter, the embedding model) kept as
    interfaces, and the properties of the specification proved or refuted
    over it.

    The methods are run on objects that are already built, with what they
    read from [self] taken as given: the constructors are not modelled.
    (As written, [PDFProcessor.__init__] and [VectorRetriever.__init__] pass
    [embedding_function=...] to [ChromaManager], whose constructor calls that
    parameter [embed_model], and the retriever reads [chroma_db.collection]
    and [chroma_db.embedding_function], which [ChromaManager] does not
    define.) *)

From Stdlib Require Import ZArith NArith Lia.
From stdpp Require Import base list strings gmap.

Local Open Scope Z_scope.

(** ** Python values and control flow *)

Module Py.

(** A Python [str] is a sequence of Unicode code points. *)
Abbreviation str := (list N).

Fixpoint bytes_of (s : string) : list N :=
  match s with
  | EmptyString => []
  | String a r => Ascii.N_of_ascii a :: bytes_of r
  end.

(** UTF-8 decoding, used only to write [str] literals legibly. *)
Fixpoint utf8_decode (bs : list N) : list N :=
  match bs with
  | [] => []
  | b0 :: r0 =>
      if (b0 <? 128)%N then b0 :: utf8_decode r0
      else if (b0 <? 224)%N then
        match r0 with
        | b1 :: r1 => ((b0 - 192) * 64 + (b1 - 128))%N :: utf8_decode r1
        | _ => [b0]
        end
      else if (b0 <? 240)%N then
        match r0 with
        | b1 :: b2 :: r2 =>
            ((b0 - 224) * 4096 + (b1 - 128) * 64 + (b2 - 128))%N
              :: utf8_decode r2
        | _ => [b0]
        end
      else
        match r0 with
        | b1 :: b2 :: b3 :: r3 =>
            ((b0 - 240) * 262144 + (b1 - 128) * 4096
             + (b2 - 128) * 64 + (b3 - 128))%N :: utf8_decode r3
        | _ => [b0]
        end
  end.

Definition lit (s : string) : str := utf8_decode (bytes_of s).

(** [str.lower] restricted to the ASCII letters; it agrees with Python on
    every string made of ASCII and caseless (for instance CJK) characters.
    The development is parametric in the lowering function and uses this
    one for concrete runs only. *)
Definition ascii_lower (s : str) : str :=
  map (fun c => if ((65 <=? c) && (c <=? 90))%N then (c + 32)%N else c) s.

(** [s.startswith(p)] *)
Fixpoint startswith (s p : str) {struct p} : bool :=
  match p, s with
  | [], _ => true
  | _ :: _, [] => false
  | a :: p', b :: s' => (a =? b)%N && startswith s' p'
  end.

(** [needle in hay] on strings: [needle] occurs at some position. *)
Fixpoint contains (hay needle : str) : bool :=
  startswith hay needle
  || match hay with
     | [] => false
     | _ :: t => contains t needle
     end.

(** [s.endswith(suf)] *)
Definition endswith (s suf : str) : bool :=
  startswith (reverse s) (reverse suf).

(** Exceptions: the class, and the place that raised it. *)
Inductive exn_class :=
| ValueError | RuntimeError | ZeroDivisionError | IndexError | KeyError
| ExternalError (* any exception raised inside a third-party call *).

Record exn := Exn { exn_cls : exn_class; exn_site : string }.

Inductive result (A : Type) :=
| Ok (a : A)
| Raise (e : exn).
Arguments Ok {A} a.
Arguments Raise {A} e.

Definition is_raise {A} (r : result A) : bool :=
  match r with Ok _ => false | Raise _ => true end.

(** Computations over a state [S] that may raise; the state reached when
    the exception is raised is kept, as in Python. *)
Definition M (S A : Type) : Type := S -> result A * S.

Definition ret {S A} (a : A) : M S A := fun s => (Ok a, s).
Definition raise {S A} (e : exn) : M S A := fun s => (Raise e, s).
Definition bind {S A B} (m : M S A) (k : A -> M S B) : M S B :=
  fun s => match m s with
           | (Ok a, s') => k a s'
           | (Raise e, s') => (Raise e, s')
           end.
(** [try: m except Exception as e: h e] *)
Definition try_except {S A} (m : M S A) (h : exn -> M S A) : M S A :=
  fun s => match m s with
           | (Ok a, s') => (Ok a, s')
           | (Raise e, s') => h e s'
           end.
Definition lift {S A} (r : result A) : M S A := fun s => (r, s).
Definition modify {S} (f : S -> S) : M S unit := fun s => (Ok tt, f s).

(** [for x in xs: body x] *)
Fixpoint for_each {S X} (xs : list X) (body : X -> M S unit) : M S unit :=
  match xs with
  | [] => ret tt
  | x :: r => bind (body x) (fun _ => for_each r body)
  end.

(** [[f x for x in xs]] with a body that may raise *)
Fixpoint map_m {S X Y} (f : X -> M S Y) (xs : list X) : M S (list Y) :=
  match xs with
  | [] => ret []
  | x :: r => bind (f x) (fun y => bind (map_m f r) (fun ys => ret (y :: ys)))
  end.

(** [l[i]] for [i >= 0] *)
Definition getitem {A} (l : list A) (i : nat) : result A :=
  match l !! i with
  | Some a => Ok a
  | None => Raise (Exn IndexError "list index out of range")
  end.

Fixpoint range_up (fuel : nat) (i stop step : Z) : list Z :=
  match fuel with
  | O => []
  | S f => if i <? stop then i :: range_up f (i + step) stop step else []
  end.

Fixpoint range_down (fuel : nat) (i stop step : Z) : list Z :=
  match fuel with
  | O => []
  | S f => if stop <? i then i :: range_down f (i + step) stop step else []
  end.

(** [range(start, stop, step)]; the fuel bounds the number of elements,
    which is at most [|stop - start|] since [|step| >= 1]. *)
Definition range (start stop step : Z) : result (list Z) :=
  if step =? 0 then Raise (Exn ValueError "range() arg 3 must not be zero")
  else if 0 <? step
       then Ok (range_up (Z.to_nat (stop - start)) start stop step)
       else Ok (range_down (Z.to_nat (start - stop)) start stop step).

(** Normalisation of a slice bound against a length. *)
Definition clamp (n : Z) (len : nat) : nat :=
  Z.to_nat (Z.min (Z.max (if n <? 0 then n + Z.of_nat len else n) 0)
                  (Z.of_nat len)).

(** [l[lo:hi]] *)
Definition slice {A} (l : list A) (lo hi : Z) : list A :=
  let a := clamp lo (length l) in
  let b := clamp hi (length l) in
  take (b - a) (drop a l).

(** [a // b] *)
Definition floordiv (a b : Z) : result Z :=
  if b =? 0 then Raise (Exn ZeroDivisionError "integer division by zero")
  else Ok (a / b).

End Py.

Export Py.

Declare Scope py_scope.
Delimit Scope py_scope with py.
Notation "x <~ m ;; k" := (bind m (fun x => k))
  (at level 100, m at next level, right associativity) : py_scope.
Notation "m ;;; k" := (bind m (fun _ => k))
  (at level 100, right associativity) : py_scope.
Local Open Scope py_scope.

(** ** Data model *)

(** Metadata values: the strings and integers the pipeline stores. *)
Inductive mdval :=
| MStr (s : Py.str)
| MInt (z : Z).

(** [langchain_core.documents.Document] *)
Record Document := mkDocument {
  page_content : Py.str;
  metadata : gmap (list N) mdval
}.

(** [md or {}] *)
Definition or_empty (md : option (gmap (list N) mdval)) : gmap (list N) mdval :=
  match md with
  | Some d => d
  | None => ∅
  end.

(** [str.lower], taken as given: its Unicode tables are not part of the
    repository. *)
Class Text := { lower : Py.str -> Py.str }.

(** ** The ingestion path: its collaborators and its state *)

(** What [ChromaManager] and [PDFProcessor] call but do not define. *)
Class Ingest := {
  (** the state of the LangChain [Chroma] store behind [self.store] *)
  Store : Type;
  (** [self.store.add_documents(documents=...)]: the identifiers or an
      exception, and the store afterwards in both cases *)
  store_add_documents : Store -> list Document -> result (list Py.str) * Store;
  (** [self.client.get_collection(name)], read for its count and metadata *)
  store_stats : Store -> result (Z * gmap (list N) mdval);
  (** [str(uuid.uuid4())], the n-th one drawn *)
  uuid4 : nat -> Py.str;
  (** [os.listdir(directory)] *)
  listdir : Py.str -> list Py.str;
  (** [PyMuPDFLoader(file_path=...).load()] *)
  loader_load : Py.str -> result (list Document);
  (** [RecursiveCharacterTextSplitter(chunk_size, chunk_overlap, ...,
      separators)]: the constructor, giving [split_documents] *)
  new_text_splitter :
    Z -> Z -> list Py.str -> result (list Document -> result (list Document))
}.

Inductive level := DEBUG | INFO | WARNING | ERROR.

(** The calls made to the collaborators, in order, with their outcome. *)
Inductive call :=
| LoaderLoad (path : Py.str) (ok : bool)
| SplitDocuments (documents : list Document) (ok : bool)
| StoreAdd (documents : list Document) (ok : bool).

Record world `{Ingest} := mkWorld {
  w_store : Store;
  w_uuid : nat;                       (* identifiers drawn so far *)
  w_calls : list call;
  w_log : list (level * string);      (* the logger's records *)
  w_stdout : list string              (* what [print] wrote *)
}.

Definition is_store_add (c : call) : bool :=
  match c with StoreAdd _ _ => true | _ => false end.

Definition is_failed_write (c : call) : bool :=
  match c with StoreAdd _ false => true | _ => false end.

(** The store writes issued, in order. *)
Definition writes (cs : list call) : list (list Document) :=
  omap (fun c => match c with StoreAdd ds _ => Some ds | _ => None end) cs.

(** The files handed to the loader, in order. *)
Definition loads (cs : list call) : list Py.str :=
  omap (fun c => match c with LoaderLoad p _ => Some p | _ => None end) cs.

Section IngestOps.
Context `{Ingest}.

Definition log (l : level) (msg : string) : M world unit :=
  modify (fun w => mkWorld _ (w_store w) (w_uuid w) (w_calls w)
                           (w_log w ++ [(l, msg)]) (w_stdout w)).

Definition print (msg : string) : M world unit :=
  modify (fun w => mkWorld _ (w_store w) (w_uuid w) (w_calls w)
                           (w_log w) (w_stdout w ++ [msg])).

Definition call_uuid4 : M world Py.str :=
  fun w => (Ok (uuid4 (w_uuid w)),
            mkWorld _ (w_store w) (S (w_uuid w)) (w_calls w)
                    (w_log w) (w_stdout w)).

Definition call_store_add (docs : list Document) : M world (list Py.str) :=
  fun w =>
    let '(r, s') := store_add_documents (w_store w) docs in
    (r, mkWorld _ s' (w_uuid w)
                (w_calls w ++ [StoreAdd docs (negb (is_raise r))])
                (w_log w) (w_stdout w)).

Definition call_loader (path : Py.str) : M world (list Document) :=
  fun w =>
    let r := loader_load path in
    (r, mkWorld _ (w_store w) (w_uuid w)
                (w_calls w ++ [LoaderLoad path (negb (is_raise r))])
                (w_log w) (w_stdout w)).

Definition call_split (split : list Document -> result (list Document))
    (documents : list Document) : M world (list Document) :=
  fun w =>
    let r := split documents in
    (r, mkWorld _ (w_store w) (w_uuid w)
                (w_calls w ++ [SplitDocuments documents (negb (is_raise r))])
                (w_log w) (w_stdout w)).
End IngestOps.

(** ** ChromaManager *)

Module ChromaManager.

(** [docs: Union[List[Document], List[str], List[dict]]]; a dict is given
    by its ["page_content"] and ["metadata"] entries, when present. *)
Inductive docs_input :=
| Documents (l : list Document)
| Strings (l : list Py.str)
| Dicts (l : list (option Py.str * option (gmap (list N) mdval)))
| Others (n : nat) (* n objects of a type that is not supported *).

(** [not docs] *)
Definition is_empty (docs : docs_input) : bool :=
  match docs with
  | Documents [] | Strings [] | Dicts [] | Others O => true
  | _ => false
  end.

Section Ops.
Context `{Ingest}.

Definition _prepare_documents (docs : docs_input)
  : M world (list Document) :=
  if is_empty docs then ret []
  else match docs with
       | Documents l => ret l
       | Strings l =>
           map_m (fun text =>
                    id <~ call_uuid4 ;;
                    ret (mkDocument text
                           (<[lit "source" := MStr (lit "user_input")]>
                              (<[lit "id" := MStr id]> ∅)))) l
       | Dicts l =>
           map_m (fun doc =>
                    match fst doc with
                    | Some text => ret (mkDocument text (or_empty (snd doc)))
                    | None => raise (Exn KeyError "page_content")
                    end) l
       | Others _ => raise (Exn ValueError "Unsupported document type")
       end.

Definition add_documents (docs : docs_input) : M world (list Py.str) :=
  try_except
    (if is_empty docs
     then log WARNING "Attempted to add empty documents list" ;;; ret []
     else processed_docs <~ _prepare_documents docs ;;
          doc_ids <~ call_store_add processed_docs ;;
          log INFO "Added documents to collection" ;;;
          ret doc_ids)
    (fun e => log ERROR "Failed to add documents" ;;;
              raise (Exn RuntimeError "Document addition failed")).

Definition get_collection_stats : M world (Z * gmap (list N) mdval) :=
  try_except
    (fun w => (store_stats (w_store w), w))
    (fun e => log ERROR "Failed to get collection stats" ;;;
              raise (Exn RuntimeError "Collection stats retrieval failed")).
End Ops.

End ChromaManager.

(** ** PDFProcessor *)

Module PDFProcessor.
Import ChromaManager.

(** The fields of the object set by [__init__]. *)
Record t := mk {
  directory : Py.str;
  file_group_num : Z;
  batch_num : Z;
  chunksize : Z;
  overlap : Z
}.

(** [os.path.join(directory, file)] on POSIX: an absolute [file] replaces
    the directory, and the separator is added unless the directory is empty
    or already ends with it. *)
Definition path_join (directory file : Py.str) : Py.str :=
  if startswith file (lit "/") then file
  else if bool_decide (directory = []) || endswith directory (lit "/")
       then directory ++ file
       else directory ++ lit "/" ++ file.

(** The separators given to the splitter, in priority order. *)
Definition separators : list Py.str :=
  [ [10; 10]%N; [10]%N; lit "。"; lit "！"; lit "？"; lit "；"; lit " "; [] ].

Section Ops.
Context `{Text} `{Ingest}.
Variable self : t.

Definition load_pdf_files : M world (list Py.str) :=
  let pdf_files :=
    map (path_join (directory self))
        (List.filter (fun file => endswith (lower file) (lit ".pdf"))
                     (listdir (directory self))) in
  match pdf_files with
  | [] => raise (Exn ValueError "no PDF file found in the directory")
  | _ => log INFO "found PDF files" ;;; ret pdf_files
  end.

Definition load_pdf_content (pdf_path : Py.str) : M world (list Document) :=
  try_except
    (docs <~ call_loader pdf_path ;;
     log DEBUG "loaded" ;;;
     ret docs)
    (fun e => log ERROR "loading the PDF failed" ;;;
              raise (Exn RuntimeError "cannot load the PDF file")).

Definition split_text (documents : list Document)
  : M world (list Document) :=
  text_splitter <~
    lift (new_text_splitter (chunksize self) (overlap self) separators) ;;
  try_except
    (docs <~ call_split text_splitter documents ;;
     log INFO "text splitting done" ;;;
     ret docs)
    (fun e => log ERROR "text splitting failed" ;;;
              raise (Exn RuntimeError "error while splitting the text")).

(** The progress bar and the documents-per-minute figure shown on it
    are display only and are left out. *)
Definition insert_docs_chromadb (docs : list Document) (batch_size : Z)
  : M world unit :=
  match docs with
  | [] => log WARNING "tried to insert an empty document list"
  | _ =>
      log INFO "start inserting documents" ;;;
      total_batches <~
        lift (floordiv (Z.of_nat (length docs) + batch_size - 1)
                       batch_size) ;;
      try_except
        (starts <~ lift (range 0 (Z.of_nat (length docs)) batch_size) ;;
         for_each starts
           (fun i =>
              let batch := slice docs i (i + batch_size) in
              _ <~ add_documents (Documents batch) ;;
              ret tt) ;;;
         log INFO "documents inserted")
        (fun e => log ERROR "inserting the documents failed" ;;;
                  raise (Exn RuntimeError "document insertion failed"))
  end.

(** The loading loop of [process_pdfs_group]:
    [pdf_contents.extend(self.load_pdf_content(pdf_path))] per file. *)
Fixpoint load_group (pdf_files_group : list Py.str)
    (pdf_contents : list Document) : M world (list Document) :=
  match pdf_files_group with
  | [] => ret pdf_contents
  | pdf_path :: rest =>
      documents <~ load_pdf_content pdf_path ;;
      load_group rest (pdf_contents ++ documents)
  end.

Definition process_pdfs_group (pdf_files_group : list Py.str)
  : M world unit :=
  try_except
    (pdf_contents <~ load_group pdf_files_group [] ;;
     match pdf_contents with
     | [] => ret tt
     | _ =>
         docs <~ split_text pdf_contents ;;
         match docs with
         | [] => ret tt
         | _ => insert_docs_chromadb docs (batch_num self)
         end
     end)
    (fun e => log ERROR "processing the PDF group failed").

Definition process_pdfs : M world unit :=
  log INFO "=== start of PDF processing ===" ;;;
  try_except
    (pdf_files <~ load_pdf_files ;;
     starts <~ lift (range 0 (Z.of_nat (length pdf_files))
                           (file_group_num self)) ;;
     for_each starts
       (fun i =>
          let group := slice pdf_files i (i + file_group_num self) in
          log INFO "processing file group" ;;;
          process_pdfs_group group) ;;;
     log INFO "=== processing done ===" ;;;
     print "PDF processing completed successfully!")
    (fun e => log ERROR "PDF processing failed" ;;;
              raise (Exn RuntimeError "PDF processing failed")).
End Ops.

End PDFProcessor.

(** ** VectorRetriever *)

Module VectorRetriever.

(** What [collection.query] returns: one inner list per query embedding. *)
Record QueryResult := mkQueryResult {
  ids : list (list Py.str);
  documents : list (list Py.str);
  metadatas : list (list (option (gmap (list N) mdval)))
}.

(** What [collection.get] returns: flat lists. *)
Record GetResult := mkGetResult {
  got_ids : list Py.str;
  got_documents : list Py.str;
  got_metadatas : list (option (gmap (list N) mdval))
}.

(** What the retriever reads from [self.chroma_db]: the embedding
    function and the collection. *)
Class Retrieval := {
  Embedding : Type;
  embed_query : Py.str -> result Embedding;
  collection_query :
    Embedding -> Z -> option (gmap (list N) mdval) -> result QueryResult;
  collection_get : list Py.str -> result GetResult
}.

(** The calls made to the collection, in order. *)
Inductive rcall `{Retrieval} :=
| CollectionQuery (query_embedding : Embedding) (n_results : Z)
    (where_ : option (gmap (list N) mdval))
| CollectionGet (ids : list Py.str).

Record t := mk { top_k : Z }.

Section Ops.
Context `{Text} `{Retrieval}.
Variable self : t.

Definition call_query (e : Embedding) (n_results : Z)
    (where_ : option (gmap (list N) mdval)) : M (list rcall) QueryResult :=
  fun cs => (collection_query e n_results where_,
             cs ++ [CollectionQuery e n_results where_]).

Definition call_get (ids : list Py.str) : M (list rcall) GetResult :=
  fun cs => (collection_get ids, cs ++ [CollectionGet ids]).

Definition similarity_search (query : Py.str)
    (filter_conditions : option (gmap (list N) mdval))
  : M (list rcall) (list Document) :=
  query_embedding <~ lift (embed_query query) ;;
  results <~ call_query query_embedding (top_k self) filter_conditions ;;
  ids0 <~ lift (getitem (ids results) 0) ;;
  map_m (fun i =>
           documents0 <~ lift (getitem (documents results) 0) ;;
           text <~ lift (getitem documents0 i) ;;
           metadatas0 <~ lift (getitem (metadatas results) 0) ;;
           md <~ lift (getitem metadatas0 i) ;;
           ret (mkDocument text (or_empty md)))
        (seq 0 (length ids0)).

(** [keyword.lower() in doc.page_content.lower()] *)
Definition keyword_match (keyword : Py.str) (doc : Document) : bool :=
  contains (lower (page_content doc)) (lower keyword).

Definition hybrid_search (query : Py.str) (keyword : option Py.str)
    (filter_conditions : option (gmap (list N) mdval))
  : M (list rcall) (list Document) :=
  vector_results <~ similarity_search query filter_conditions ;;
  match keyword with
  | Some (c :: kw) =>
      let filtered := List.filter (keyword_match (c :: kw)) vector_results in
      ret (slice filtered 0 (top_k self))
  | _ => ret vector_results
  end.

Definition get_by_id (doc_id : Py.str) : M (list rcall) (option Document) :=
  result <~ call_get [doc_id] ;;
  match got_documents result with
  | [] => ret None
  | _ =>
      text <~ lift (getitem (got_documents result) 0) ;;
      md <~ lift (getitem (got_metadatas result) 0) ;;
      ret (Some (mkDocument text (or_empty md)))
  end.
End Ops.

End VectorRetriever.

(** ** The collection behind the retriever *)

Module Collection.
Import VectorRetriever.

(** Modelled from the spec: the persistent vector index of section 1 of
    the specification (upsert with metadata, fetch by identifier), which
    the repository takes from chromadb and does not define.  A collection
    maps identifiers to a text and its metadata; fetching returns the
    records stored under the requested identifiers and nothing for the
    others. *)
Definition upsert (id text : Py.str) (md : option (gmap (list N) mdval))
    (c : gmap (list N) (list N * option (gmap (list N) mdval)))
  : gmap (list N) (list N * option (gmap (list N) mdval)) :=
  <[id := (text, md)]> c.

(** The collection after a history of upserts, oldest first. *)
Definition after
    (history : list (list N * list N * option (gmap (list N) mdval)))
  : gmap (list N) (list N * option (gmap (list N) mdval)) :=
  foldl (fun c r => upsert (r.1.1) (r.1.2) (r.2) c) ∅ history.

Definition get (c : gmap (list N) (list N * option (gmap (list N) mdval)))
    (ids : list Py.str) : GetResult :=
  let found := omap (fun i => (fun r => (i, r)) <$> c !! i) ids in
  mkGetResult (fst <$> found) ((fun x => x.2.1) <$> found)
              ((fun x => x.2.2) <$> found).

(** The retriever's view of a collection; [up = false] is an unreachable
    or broken index, whose every call raises.  Nearest-neighbour search is
    left to [nearest]. *)
Definition backend (up : bool)
    (c : gmap (list N) (list N * option (gmap (list N) mdval)))
    (nearest : Z -> option (gmap (list N) mdval) -> QueryResult)
  : Retrieval :=
  {| Embedding := unit;
     embed_query := fun _ => Ok tt;
     collection_query := fun _ k w =>
       if up then Ok (nearest k w)
       else Raise (Exn ExternalError "collection.query");
     collection_get := fun ids =>
       if up then Ok (get c ids)
       else Raise (Exn ExternalError "collection.get") |}.
End Collection.

(** ** The chunking algorithm *)

Module SpecSplitter.

Section Split.
Variables (chunk_size overlap : nat) (separators : list Py.str).

(** Modelled from the spec: where a separator "fits".  The last [k] with
    [overlap < k <= bound] at which [sep] ends in the window [w]; a cut
    must lie beyond the overlap for the next chunk to start further on. *)
Fixpoint last_cut (sep w : Py.str) (bound : nat) : option nat :=
  match bound with
  | O => None
  | S b =>
      if (overlap <? bound)%nat && endswith (take bound w) sep
      then Some bound
      else last_cut sep w b
  end.

(** Modelled from the spec: the separator priority of section 4.2.  The cut
    is taken at the first separator, in priority order, that fits in the
    window; the empty separator fits at the end of the window, which is the
    hard cut at [chunk_size]. *)
Fixpoint choose_cut (seps : list Py.str) (w : Py.str) : nat :=
  match seps with
  | [] => length w
  | sep :: rest =>
      match last_cut sep w (length w) with
      | Some k => k
      | None => choose_cut rest w
      end
  end.

(** Modelled from the spec: the chunking algorithm of section 4.2, which
    the repository does not define: [split_text] only configures and calls
    the third-party [RecursiveCharacterTextSplitter].  Following the
    specification, a page is cut from left to right; a remainder that fits
    in [chunk_size] is one chunk, and none if it is empty; otherwise the
    chunk ends at the cut chosen in the next [chunk_size] characters, and
    the next chunk starts [overlap] characters before that cut, which
    re-includes the trailing [overlap] characters of the previous chunk at
    its head.  [pos] is the offset of [rest] in the page; [fuel] bounds the
    number of chunks. *)
Fixpoint split_from (fuel pos : nat) (rest : Py.str)
  : list (nat * Py.str) :=
  match fuel with
  | O => []
  | S f =>
      match rest with
      | [] => []
      | _ =>
          if (length rest <=? chunk_size)%nat then [(pos, rest)]
          else
            let k := choose_cut separators (take chunk_size rest) in
            (pos, take k rest)
              :: split_from f (pos + (k - overlap))%nat
                            (drop (k - overlap) rest)
      end
  end.

(** Modelled from the spec: the chunks of one page text, each with its
    start offset in the page. *)
Definition split_page (text : Py.str) : list (nat * Py.str) :=
  split_from (length text) 0 text.

(** Modelled from the spec: a chunk inherits the metadata of its page,
    merged with its [start_offset]. *)
Definition chunk_of (page : Document) (c : nat * Py.str) : Document :=
  mkDocument (c.2)
             (<[lit "start_offset" := MInt (Z.of_nat (c.1))]> (metadata page)).

Definition split_page_documents (page : Document) : list Document :=
  chunk_of page <$> split_page (page_content page).

(** Modelled from the spec: [split(pages, chunk_size, overlap)], the chunks
    of the pages, page after page. *)
Definition split_documents (pages : list Document) : list Document :=
  concat (split_page_documents <$> pages).
End Split.

(** Modelled from the spec: the contract [0 <= overlap < chunk_size] of
    section 4.2, checked when the splitter is built. *)
Definition new_text_splitter (chunk_size overlap : Z)
    (separators : list Py.str)
  : result (list Document -> result (list Document)) :=
  if (0 <=? overlap) && (overlap <? chunk_size)
  then Ok (fun pages =>
             Ok (split_documents (Z.to_nat chunk_size) (Z.to_nat overlap)
                                 separators pages))
  else Raise (Exn ValueError "overlap must be smaller than the chunk size").

(** [d.metadata["start_offset"]] *)
Definition start_offset (d : Document) : option mdval :=
  metadata d !! lit "start_offset".

End SpecSplitter.

(** ** Concrete collaborators, for running the model *)

Module Fixture.
Import ChromaManager PDFProcessor VectorRetriever.

#[export] Instance ascii_text : Text := {| lower := ascii_lower |}.

Definition doc (text : string) : Document := mkDocument (lit text) ∅.

(** A splitter that leaves every page whole. *)
Definition whole_pages (chunk_size overlap : Z) (separators : list Py.str)
  : result (list Document -> result (list Document)) :=
  Ok (fun pages => Ok pages).

(** A directory [dir] holding [files] (name and what loading it gives), a
    store that keeps the documents in a list and refuses a batch when
    [reject] holds of one of its documents, and the given splitter. *)
Definition env_with
    (splitter : Z -> Z -> list Py.str
                -> result (list Document -> result (list Document)))
    (dir : Py.str) (files : list (list N * result (list Document)))
    (reject : Document -> bool) : Ingest :=
  {| Store := list Document;
     store_add_documents := fun s docs =>
       if existsb reject docs
       then (Raise (Exn ExternalError "store.add_documents"), s)
       else (Ok (imap (fun i _ => [N.of_nat (length s + i)]) docs), s ++ docs);
     store_stats := fun s => Ok (Z.of_nat (length s), ∅);
     uuid4 := fun n => [N.of_nat n];
     listdir := fun d => if bool_decide (d = dir) then fst <$> files else [];
     loader_load := fun path =>
       match List.find (fun f => bool_decide (path_join dir (f.1) = path)) files with
       | Some f => f.2
       | None => Raise (Exn ExternalError "PyMuPDFLoader")
       end;
     new_text_splitter := splitter |}.

Definition env := env_with whole_pages.

(** The same collaborators with the splitter of the specification. *)
Definition chunking : Ingest :=
  env_with SpecSplitter.new_text_splitter (lit "pdfs") [] (fun _ => false).

Definition empty_world `{Ingest} (s : Store) : world := mkWorld _ s 0 [] [] [].

Definition is_bad (d : Document) : bool :=
  bool_decide (page_content d = lit "BAD").

Definition processor (group batch : Z) : PDFProcessor.t :=
  PDFProcessor.mk (lit "pdfs") group batch 500 100.

(** A store that accepts everything, and seven documents to insert. *)
Definition open_store : Ingest := env (lit "pdfs") [] (fun _ => false).

Definition seven_docs : list Document :=
  doc <$> ["a"; "b"; "c"; "d"; "e"; "f"; "g"].

(** A directory where [a.pdf] cannot be read and [b.PDF] has one page. *)
Definition one_unreadable : Ingest :=
  env (lit "pdfs")
      [(lit "a.pdf", Raise (Exn ExternalError "PyMuPDFLoader"));
       (lit "b.PDF", Ok [doc "hello"])]
      is_bad.

(** A directory whose only file has a page that the store refuses. *)
Definition one_refused : Ingest :=
  env (lit "pdfs") [(lit "a.pdf", Ok [doc "BAD"])] is_bad.

(** A directory without any PDF file. *)
Definition no_pdf : Ingest :=
  env (lit "pdfs") [(lit "notes.txt", Ok [doc "hello"])] is_bad.

(** A processor cutting chunks of 10 characters with an overlap of 3, and
    a page to cut. *)
Definition small_chunks : PDFProcessor.t :=
  PDFProcessor.mk (lit "pdfs") 80 6 10 3.

Definition sample_page : Document :=
  doc "hello world. this is a test of the splitter".

(** The retriever of the unit tests: [top_k = 3] over a collection whose
    query answers with three texts with empty metadata. *)
Definition three_results : QueryResult :=
  mkQueryResult [[lit "id1"; lit "id2"; lit "id3"]]
                [[lit "混凝土强度标准"; lit "钢筋检测规范"; lit "施工安全要求"]]
                [[Some ∅; Some ∅; Some ∅]].

Definition test_collection : Retrieval :=
  Collection.backend true ∅ (fun _ _ => three_results).

Definition test_retriever : VectorRetriever.t := VectorRetriever.mk 3.
End Fixture.

(** ** Vocabulary of the statements *)

(** The consecutive slices of [b] elements of a list, the last one possibly
    shorter: there are [ceil (length l / b)] of them. *)
Definition windows {A} (b : Z) (l : list A) : list (list A) :=
  (fun k : nat => take (Z.to_nat b) (drop (k * Z.to_nat b) l))
    <$> seq 0 (Z.to_nat ((Z.of_nat (length l) + b - 1) / b)).

(** [needle] occurs in [hay] as a contiguous run of characters. *)
Definition occurs_in (needle hay : Py.str) : Prop :=
  exists pre post, hay = pre ++ needle ++ post.

(** The files of a group that the loading loop reads: in order, up to and
    including the first one whose loading fails. *)
Fixpoint attempted `{Ingest} (group : list Py.str) : list Py.str :=
  match group with
  | [] => []
  | p :: rest => p :: (if is_raise (loader_load p) then [] else attempted rest)
  end.

(** [post m s Q]: running [m] from [s] ends with a result and a state that
    satisfy [Q]. *)
Definition post {S A} (m : M S A) (s : S) (Q : result A -> S -> Prop) : Prop :=
  Q (m s).1 (m s).2.

(** [keeps I m]: [m] preserves the property [I] of the state, whether it
    returns or raises. *)
Definition keeps {S A} (I : S -> Prop) (m : M S A) : Prop :=
  forall s, I s -> I (m s).2.

(** No store write recorded so far has failed. *)
Definition no_failed_write `{Ingest} (w : world) : Prop :=
  existsb is_failed_write (w_calls w) = false.

(** An operation does not mask a write failure: when a store write has
    failed by the time it ends, it ends by raising. *)
Definition surfaces_write_failure `{Ingest} {A} (op : M world A) (w : world)
  : Prop :=
  existsb is_failed_write (w_calls (op w).2) = true -> is_raise (op w).1 = true.


(** How many times a file was handed to the loader. *)
Definition times_loaded (f : Py.str) (cs : list call) : nat :=
  length (List.filter (fun p => bool_decide (p = f)) (loads cs)).

(** A run that ends normally has handed every discovered file to the loader
    exactly once. *)
Definition every_file_attempted_once `{Text} `{Ingest}
    (self : PDFProcessor.t) (w : world) : Prop :=
  forall pdf_files,
    (PDFProcessor.load_pdf_files self w).1 = Ok pdf_files ->
    (PDFProcessor.process_pdfs self w).1 = Ok tt ->
    forall f, f ∈ pdf_files ->
      times_loaded f (w_calls (PDFProcessor.process_pdfs self w).2)
      = (times_loaded f (w_calls w) + 1)%nat.

(** A property of the call log that survives the calls satisfying [phi]. *)
Definition stable (phi : call -> bool) (P : list call -> Prop) : Prop :=
  forall cs c, P cs -> phi c = true -> P (cs ++ [c]).

Definition is_loader_load (c : call) : bool :=
  match c with LoaderLoad _ _ => true | _ => false end.

Definition is_split (c : call) : bool :=
  match c with SplitDocuments _ _ => true | _ => false end.

Definition on_calls `{Ingest} (P : list call -> Prop) (w : world) : Prop :=
  P (w_calls w).

(** What follows the loading loop in [process_pdfs_group]: the splitting,
    then the insertion. *)
Definition split_and_insert `{Ingest} (self : PDFProcessor.t)
    (pdf_contents : list Document) : M world unit :=
  match pdf_contents with
  | [] => ret tt
  | _ =>
      docs <~ PDFProcessor.split_text self pdf_contents ;;
      match docs with
      | [] => ret tt
      | _ => PDFProcessor.insert_docs_chromadb docs (PDFProcessor.batch_num self)
      end
  end.

(** Consecutive chunks of a page: the start offsets do not decrease, and
    the last [o] characters of a chunk are the first [o] of the next. *)
Fixpoint chained (o : nat) (cs : list (nat * list N)) : Prop :=
  match cs with
  | a :: (b :: _) as rest =>
      (a.1 <= b.1)%nat
      /\ drop (length (a.2) - o) (a.2) = take o (b.2)
      /\ chained o rest
  | _ => True
  end.

(** ** Calls, constructors and the HTTP surface *)

(** Exceptions beyond those of the core: a call that does not match the
    signature of its callee, and the HTTP errors of the API. *)
Inductive exc :=
| Core (e : exn)
| TypeError (msg : string)
| HTTPException (status_code : Z) (detail : string).

Inductive outcome (A : Type) :=
| Returned (a : A)
| Raised (e : exc).
Arguments Returned {A} a.
Arguments Raised {A} e.

(** Computations over a state [S] that may raise any of these. *)
Definition X (S A : Type) : Type := S -> outcome A * S.

Definition xret {S A} (a : A) : X S A := fun s => (Returned a, s).
Definition xraise {S A} (e : exc) : X S A := fun s => (Raised e, s).
Definition xbind {S A B} (m : X S A) (k : A -> X S B) : X S B :=
  fun s => match m s with
           | (Returned a, s') => k a s'
           | (Raised e, s') => (Raised e, s')
           end.
(** [try: m except ...: h e], the handler choosing by the class of [e] *)
Definition xtry {S A} (m : X S A) (h : exc -> X S A) : X S A :=
  fun s => match m s with
           | (Returned a, s') => (Returned a, s')
           | (Raised e, s') => h e s'
           end.
(** A computation of the core, run on the part [get] of the state. *)
Definition from_core {S S' A} (get : S -> S') (set : S' -> S -> S)
    (m : M S' A) : X S A :=
  fun s => match m (get s) with
           | (Ok a, s') => (Returned a, set s' s)
           | (Raise e, s') => (Raised (Core e), set s' s)
           end.
Definition xmodify {S} (f : S -> S) : X S unit := fun s => (Returned tt, f s).

Notation "x <~~ m ;; k" := (xbind m (fun x => k))
  (at level 100, m at next level, right associativity) : py_scope.
Notation "m ;;;; k" := (xbind m (fun _ => k))
  (at level 100, right associativity) : py_scope.

Module PyCall.

(** The values passed to the constructors. *)
Inductive pyval :=
| VNone
| VBool (b : bool)
| VInt (z : Z)
| VStr (s : Py.str)
| VObj (n : nat) (* some other object, such as an embedding model *).

#[global] Instance pyval_eq_dec : EqDecision pyval.
Proof. solve_decision. Defined.

(** [bool(v)] *)
Definition truthy (v : pyval) : bool :=
  match v with
  | VNone => false
  | VBool b => b
  | VInt z => negb (z =? 0)
  | VStr s => match s with [] => false | _ => true end
  | VObj _ => true
  end.

Fixpoint lookup_kw (name : string) (kwargs : list (string * pyval))
  : option pyval :=
  match kwargs with
  | [] => None
  | (n, v) :: rest => if String.eqb n name then Some v else lookup_kw name rest
  end.

Definition declares (params : list (string * pyval)) (name : string) : bool :=
  existsb (fun p => String.eqb p.1 name) params.

(** Binding the keyword arguments of a call to the parameters of a callee
    that has a default for each of them and takes no [**kwargs]: a keyword
    that is not a parameter is a [TypeError]. *)
Definition check_keywords {S} (callee : string)
    (params kwargs : list (string * pyval)) : X S unit :=
  match List.find (fun kw => negb (declares params kw.1)) kwargs with
  | Some kw => xraise (TypeError (callee ++ " got an unexpected keyword argument"))
  | None => xret tt
  end.

(** The value a parameter takes: the keyword given, or the default. *)
Definition arg (params kwargs : list (string * pyval)) (name : string)
  : pyval :=
  match lookup_kw name kwargs with
  | Some v => v
  | None => default VNone (lookup_kw name params)
  end.

End PyCall.

(** ** ChromaManager: construction and query *)

Module ChromaManagerInit.
Import PyCall.

(** What the constructor and [query] call in chromadb and LangChain. *)
Class Backend := {
  Client : Type;
  Handle : Type;
  (** [chromadb.HttpClient(host=, port=, settings=)] *)
  new_http_client : pyval -> pyval -> result Client;
  (** [chromadb.PersistentClient(path=, settings=)] *)
  new_persistent_client : pyval -> result Client;
  (** [Chroma(collection_name=, embedding_function=, client=,
      persist_directory=)] *)
  new_chroma : pyval -> pyval -> Client -> pyval -> result Handle;
  (** [self.store.similarity_search(query_text, k=k, **kwargs)] *)
  handle_similarity_search :
    Handle -> Py.str -> pyval -> list (string * pyval) -> result (list Document)
}.

(** The calls made while building objects, in order. *)
Inductive init_call :=
| NewHttpClient (host port : pyval)
| NewPersistentClient (path : pyval)
| NewChroma (collection_name embed_model persist_directory : pyval)
| MakeDirs (path : Py.str)
| IsDir (path : pyval).

Record istate := mkIstate {
  i_calls : list init_call;
  i_log : list (level * string)
}.

Definition ilog (l : level) (msg : string) : M istate unit :=
  modify (fun s => mkIstate (i_calls s) (i_log s ++ [(l, msg)])).

Definition icall (c : init_call) : M istate unit :=
  modify (fun s => mkIstate (i_calls s ++ [c]) (i_log s)).

(** The fields of a built [ChromaManager]. *)
Record t `{Backend} := mk {
  client : Client;
  collection_name : pyval;
  embed_model : pyval;
  store : Handle
}.

(** The parameters of [ChromaManager.__init__] and their defaults. *)
Definition params : list (string * pyval) :=
  [ ("chroma_server_type", VStr (lit "local"));
    ("host", VStr (lit "localhost"));
    ("port", VInt 8000);
    ("persist_path", VStr (lit "chroma_db"));
    ("collection_name", VStr (lit "langchain"));
    ("embed_model", VNone) ].

Section Ops.
Context `{Backend}.

Definition _validate_init_params (server_type host port path : pyval)
  : M istate unit :=
  if negb (bool_decide (server_type = VStr (lit "local"))
           || bool_decide (server_type = VStr (lit "http")))
  then raise (Exn ValueError "Invalid server type")
  else if bool_decide (server_type = VStr (lit "http"))
          && negb (truthy host && truthy port)
  then raise (Exn ValueError "Host and port must be specified for HTTP mode")
  else if bool_decide (server_type = VStr (lit "local")) && negb (truthy path)
  then raise (Exn ValueError "Persist path must be specified for local mode")
  else ret tt.

(** The handler logs and re-raises the exception as it is. *)
Definition _create_client (server_type host port path : pyval)
  : M istate Client :=
  try_except
    (if bool_decide (server_type = VStr (lit "http"))
     then icall (NewHttpClient host port) ;;;
          lift (new_http_client host port)
     else icall (NewPersistentClient path) ;;;
          lift (new_persistent_client path))
    (fun e => ilog ERROR "Chroma client creation failed" ;;; raise e).

Definition __init__ (kwargs : list (string * pyval)) : X istate t :=
  check_keywords "ChromaManager.__init__()" params kwargs ;;;;
  let chroma_server_type := arg params kwargs "chroma_server_type" in
  let host := arg params kwargs "host" in
  let port := arg params kwargs "port" in
  let persist_path := arg params kwargs "persist_path" in
  let collection_name := arg params kwargs "collection_name" in
  let embed_model := arg params kwargs "embed_model" in
  from_core id (fun s _ => s)
    (_validate_init_params chroma_server_type host port persist_path ;;;
     client <~ _create_client chroma_server_type host port persist_path ;;
     try_except
       (let persist_directory :=
          if bool_decide (chroma_server_type = VStr (lit "local"))
          then persist_path else VNone in
        icall (NewChroma collection_name embed_model persist_directory) ;;;
        store <~ lift (new_chroma collection_name embed_model client
                                  persist_directory) ;;
        ilog INFO "ChromaDB initialized successfully" ;;;
        ret (mk _ client collection_name embed_model store))
       (fun e => ilog ERROR "ChromaDB initialization failed" ;;;
                 raise (Exn RuntimeError "Failed to initialize ChromaDB"))).

Definition query (self : t) (query_text : Py.str) (k : pyval)
    (kwargs : list (string * pyval)) : M istate (list Document) :=
  try_except
    (results <~ lift (handle_similarity_search (store self) query_text k kwargs) ;;
     ilog DEBUG "Query returned results" ;;;
     ret results)
    (fun e => ilog ERROR "Query failed" ;;;
              raise (Exn RuntimeError "Query operation failed")).
End Ops.

End ChromaManagerInit.

(** ** The constructors of PDFProcessor and VectorRetriever *)

Module PDFProcessorInit.
Import PyCall ChromaManagerInit.

(** What [__init__] asks the file system. *)
Class FileSystem := {
  (** [os.makedirs("logs", exist_ok=True)] and the opening of the log file *)
  setup_log_files : result unit;
  (** [os.path.isdir(directory)] *)
  isdir : pyval -> bool
}.

(** The fields of a built [PDFProcessor]. *)
Record t `{Backend} := mk {
  directory : pyval;
  file_group_num : pyval;
  batch_num : pyval;
  chunksize : pyval;
  overlap : pyval;
  chroma_db : ChromaManagerInit.t
}.

Section Ops.
Context `{Backend} `{FileSystem}.

Definition _setup_logging : M istate unit :=
  icall (MakeDirs (lit "logs")) ;;;
  lift setup_log_files.

(** The arguments are the parameters after binding: the caller's values or
    the defaults of the signature. *)
Definition __init__ (directory chroma_server_type persist_path
    embedding_function file_group_num batch_num chunksize overlap : pyval)
  : X istate t :=
  chroma_db <~~
    ChromaManagerInit.__init__
      [ ("chroma_server_type", chroma_server_type);
        ("persist_path", persist_path);
        ("embedding_function", embedding_function) ] ;;
  from_core id (fun s _ => s)
    (_setup_logging ;;;
     icall (IsDir directory) ;;;
     if isdir directory
     then ret (mk _ directory file_group_num batch_num chunksize overlap
                  chroma_db)
     else raise (Exn ValueError "the directory does not exist")).
End Ops.

End PDFProcessorInit.

Module VectorRetrieverInit.
Import PyCall ChromaManagerInit.

(** The fields of a built [VectorRetriever]. *)
Record t `{Backend} := mk {
  chroma_db : ChromaManagerInit.t;
  top_k : pyval
}.

Section Ops.
Context `{Backend}.

Definition __init__ (chroma_server_type persist_path collection_name
    embedding_function top_k : pyval) : X istate t :=
  chroma_db <~~
    ChromaManagerInit.__init__
      [ ("chroma_server_type", chroma_server_type);
        ("persist_path", persist_path);
        ("collection_name", collection_name);
        ("embedding_function", embedding_function) ] ;;
  xret (mk _ chroma_db top_k).

(** [initialize_retriever] of the API.  [loaded] is what
    [load_embedding_model()] gave, evaluated inside the [try]; the other
    arguments are those of the call and the defaults of the signature; the
    handler logs and re-raises. *)
Definition initialize_retriever (loaded : result pyval) : X istate t :=
  xtry
    (embedding_function <~~ from_core id (fun s _ => s) (lift loaded) ;;
     __init__ (VStr (lit "local")) (VStr (lit "data/vector_db"))
              (VStr (lit "construction_docs")) embedding_function (VInt 10))
    (fun e =>
       xmodify (fun s => mkIstate (i_calls s)
                           (i_log s ++ [(ERROR, "retriever initialization failed")])) ;;;;
       xraise e).
End Ops.

End VectorRetrieverInit.

(** ** The HTTP endpoints *)

#[export] Instance mdval_eq_dec : EqDecision mdval.
Proof. solve_decision. Defined.

Module RetrievalApi.
Import VectorRetriever.

(** [QueryRequest], as the endpoint receives it. *)
Record QueryRequest := mkRequest {
  query : Py.str;
  top_k : option Z;
  keyword_filter : option Py.str;
  metadata_filter : option (gmap (list N) mdval)
}.

(** The ["score"] entry of an answer: the constants [0.0] and [1.0], or
    the value found in the metadata. *)
Inductive score_value :=
| ScoreZero
| ScoreOne
| ScoreOf (v : mdval).

(** One entry of the answer. *)
Record DocumentResponse := mkResponse {
  resp_id : Py.str;
  content : Py.str;
  resp_metadata : gmap (list N) mdval;
  score : score_value
}.

(** [str(hash(s))]; the hash of a string changes from one process to the
    next. *)
Class Hashing := { str_hash : Py.str -> Py.str }.

Record astate `{Retrieval} := mkAstate {
  a_calls : list rcall;
  a_log : list (level * string)
}.

Section Endpoints.
Context `{Text} `{Retrieval} `{Hashing}.
(** The module-level [retriever]. *)
Variable retriever : VectorRetriever.t.

Definition alog (l : level) (msg : string) : X astate unit :=
  xmodify (fun s => mkAstate _ (a_calls s) (a_log s ++ [(l, msg)])).

(** A call of a method of the retriever. *)
Definition retrieve {A} (m : M (list rcall) A) : X astate A :=
  from_core a_calls (fun cs s => mkAstate _ cs (a_log s)) m.

(** [bool(request.keyword_filter)] and [bool(request.metadata_filter)] *)
Definition given_keyword (request : QueryRequest) : bool :=
  match keyword_filter request with
  | Some (_ :: _) => true
  | _ => false
  end.

Definition given_metadata (request : QueryRequest) : bool :=
  match metadata_filter request with
  | Some m => negb (bool_decide (m = ∅))
  | None => false
  end.

(** [docs[:request.top_k]] *)
Definition first_top_k (request : QueryRequest) (docs : list Document)
  : list Document :=
  match top_k request with
  | Some k => slice docs 0 k
  | None => docs
  end.

Definition format_result (doc : Document) : DocumentResponse :=
  mkResponse (str_hash (page_content doc)) (page_content doc) (metadata doc)
             (match metadata doc !! lit "score" with
              | Some v => ScoreOf v
              | None => ScoreZero
              end).

Definition search_documents (request : QueryRequest)
  : X astate (list DocumentResponse) :=
  xtry
    (alog INFO "search request received" ;;;;
     (if (500 <? Z.of_nat (length (query request)))
      then xraise (HTTPException 400 "query text too long (500 characters at most)")
      else xret tt) ;;;;
     docs <~~
       (if given_keyword request || given_metadata request
        then retrieve (hybrid_search retriever (query request)
                         (keyword_filter request) (metadata_filter request))
        else retrieve (similarity_search retriever (query request)
                         (metadata_filter request))) ;;
     let results := format_result <$> first_top_k request docs in
     alog INFO "results returned" ;;;;
     xret results)
    (fun e =>
       match e with
       | HTTPException status_code detail =>
           xraise (HTTPException status_code detail)
       | _ =>
           alog ERROR "search failed" ;;;;
           xraise (HTTPException 500 "search service temporarily unavailable")
       end).

(** The only handler is [except Exception], which also catches the
    [HTTPException] raised in the body. *)
Definition get_document (doc_id : Py.str) : X astate DocumentResponse :=
  xtry
    (doc <~~ retrieve (get_by_id doc_id) ;;
     match doc with
     | None => xraise (HTTPException 404 "document does not exist")
     | Some d =>
         xret (mkResponse doc_id (page_content d) (metadata d) ScoreOne)
     end)
    (fun e =>
       alog ERROR "getting the document failed" ;;;;
       xraise (HTTPException 500 "document retrieval failed")).
End Endpoints.

End RetrievalApi.

(** ** Embedding models *)

Module EmbeddingUtils.
Import PyCall.

(** The environment and the model classes of LangChain. *)
Class Providers := {
  Model : Type;
  (** [os.getenv(name)] *)
  getenv : string -> option Py.str;
  (** [HuggingFaceEmbeddings(model_name=, model_kwargs={'device': },
      encode_kwargs={'normalize_embeddings': })] *)
  new_huggingface : pyval -> pyval -> pyval -> result Model;
  (** [OpenAIEmbeddings(model=, deployment=, openai_api_key=)] *)
  new_openai : pyval -> pyval -> option Py.str -> result Model
}.

(** The models built, in order. *)
Inductive ecall :=
| HuggingFaceEmbeddings (model_name device normalize_embeddings : pyval)
| OpenAIEmbeddings (model deployment : pyval) (openai_api_key : option Py.str).

(** [kwargs.get(name, default)] *)
Definition kwargs_get (kwargs : list (string * pyval)) (name : string)
    (default_ : pyval) : pyval :=
  default default_ (lookup_kw name kwargs).

(** [bool(os.getenv(name))] *)
Definition env_set `{Providers} (name : string) : bool :=
  match getenv name with
  | Some (_ :: _) => true
  | _ => false
  end.

Section Ops.
Context `{Providers}.

Definition ecalled (c : ecall) : M (list ecall) unit :=
  modify (fun cs => cs ++ [c]).

Definition load_embedding_model (model_type : Py.str)
    (kwargs : list (string * pyval)) : M (list ecall) Model :=
  if bool_decide (model_type = lit "openai") && negb (env_set "OPENAI_API_KEY")
  then raise (Exn ValueError "OpenAI API key is not configured")
  else
    try_except
      (if bool_decide (model_type = lit "huggingface")
          || bool_decide (model_type = lit "sentence-transformers")
       then
         let model_name :=
           kwargs_get kwargs "model_name"
                      (VStr (lit "GanymedeNil/text2vec-large-chinese")) in
         let device := kwargs_get kwargs "device" (VStr (lit "cpu")) in
         let normalize :=
           kwargs_get kwargs "normalize_embeddings" (VBool true) in
         ecalled (HuggingFaceEmbeddings model_name device normalize) ;;;
         lift (new_huggingface model_name device normalize)
       else if bool_decide (model_type = lit "openai")
       then
         let model :=
           kwargs_get kwargs "model" (VStr (lit "text-embedding-3-small")) in
         let deployment := kwargs_get kwargs "deployment" VNone in
         ecalled (OpenAIEmbeddings model deployment (getenv "OPENAI_API_KEY")) ;;;
         lift (new_openai model deployment (getenv "OPENAI_API_KEY"))
       else raise (Exn ValueError "unsupported model type"))
      (fun e => raise (Exn RuntimeError "loading the model failed")).
End Ops.

End EmbeddingUtils.

(** ** The Qwen client *)

Module QwenClient.

(** The configuration file and the model classes. *)
Class Env := {
  LLM : Type;
  Chat : Type;
  Embed : Type;
  (** [os.path.exists(conf_file_path_qwen)] *)
  conf_exists : bool;
  (** [load_dotenv(dotenv_path=conf_file_path_qwen)] *)
  load_dotenv : result unit;
  (** [Tongyi(model="qwen-max", ...)] *)
  new_tongyi : result LLM;
  (** [ChatTongyi(model="qwen-max", ...)] *)
  new_chat_tongyi : result Chat;
  (** [DashScopeEmbeddings(model="text-embedding-v3")] *)
  new_dashscope_embeddings : result Embed
}.

Inductive qcall :=
| LoadDotenv
| NewTongyi
| NewChatTongyi
| NewDashScopeEmbeddings.

Record qstate := mkQstate {
  q_calls : list qcall;
  q_log : list (level * string)
}.

Definition qlog (l : level) (msg : string) : M qstate unit :=
  modify (fun s => mkQstate (q_calls s) (q_log s ++ [(l, msg)])).

Definition qcalled (c : qcall) : M qstate unit :=
  modify (fun s => mkQstate (q_calls s ++ [c]) (q_log s)).

Section Ops.
Context `{Env}.

Definition load_qwen_config : M qstate bool :=
  try_except
    (if negb conf_exists
     then qlog ERROR "Qwen config file not found" ;;; ret false
     else qcalled LoadDotenv ;;;
          lift load_dotenv ;;;
          ret true)
    (fun e => qlog ERROR "Failed to load Qwen configuration" ;;; ret false).

Definition get_qwen_models : M qstate (LLM * Chat * Embed) :=
  loaded <~ load_qwen_config ;;
  if negb loaded
  then raise (Exn RuntimeError "Qwen configuration loading failed")
  else
    try_except
      (qcalled NewTongyi ;;;
       llm <~ lift new_tongyi ;;
       qcalled NewChatTongyi ;;;
       chat <~ lift new_chat_tongyi ;;
       qcalled NewDashScopeEmbeddings ;;;
       embed <~ lift new_dashscope_embeddings ;;
       qlog INFO "Qwen models initialized successfully" ;;;
       ret (llm, chat, embed))
      (fun e => qlog ERROR "Failed to initialize Qwen models" ;;;
                raise (Exn RuntimeError "Model initialization failed")).
End Ops.

End QwenClient.

(** ** Vocabulary of the further statements *)

(** The call that reads one file, with its outcome. *)
Definition load_call `{Ingest} (p : Py.str) : call :=
  LoaderLoad p (negb (is_raise (loader_load p))).

(** The pages of the files of a group, file after file. *)
Definition loaded_pages `{Ingest} (group : list Py.str) : list Document :=
  concat ((fun p => match loader_load p with
                    | Ok pages => pages
                    | Raise _ => []
                    end) <$> group).

(** The document that [_prepare_documents] makes of a plain text. *)
Definition user_input_document (text id : Py.str) : Document :=
  mkDocument text
             (<[lit "source" := MStr (lit "user_input")]>
                (<[lit "id" := MStr id]> ∅)).

(** The log record that reading one file leaves. *)
Definition load_log `{Ingest} (p : Py.str) : level * string :=
  if is_raise (loader_load p)
  then (ERROR, "loading the PDF failed")
  else (DEBUG, "loaded").

(** The documents made of a list of plain texts, the identifiers being
    drawn from the [first]-th on. *)
Definition user_input_documents `{Ingest} (first : nat) (texts : list Py.str)
  : list Document :=
  imap (fun i text => user_input_document text (uuid4 (first + i))) texts.

(** The retrieval that a search request leads to. *)
Definition retrieval_of `{Text} `{VectorRetriever.Retrieval}
    (retriever : VectorRetriever.t) (request : RetrievalApi.QueryRequest)
  : M (list VectorRetriever.rcall) (list Document) :=
  if RetrievalApi.given_keyword request || RetrievalApi.given_metadata request
  then VectorRetriever.hybrid_search retriever
         (RetrievalApi.query request) (RetrievalApi.keyword_filter request)
         (RetrievalApi.metadata_filter request)
  else VectorRetriever.similarity_search retriever
         (RetrievalApi.query request) (RetrievalApi.metadata_filter request).

(** The parameters that [ChromaManager] accepts: a local store with a path,
    or a server with a host and a port. *)
Definition valid_params (server_type host port path : PyCall.pyval) : bool :=
  (bool_decide (server_type = PyCall.VStr (lit "local")) && PyCall.truthy path)
  || (bool_decide (server_type = PyCall.VStr (lit "http"))
      && PyCall.truthy host && PyCall.truthy port).

(** The model types that [load_embedding_model] knows. *)
Definition known_model_type (model_type : Py.str) : bool :=
  bool_decide (model_type = lit "huggingface")
  || bool_decide (model_type = lit "sentence-transformers")
  || bool_decide (model_type = lit "openai").

(** ** Further concrete collaborators *)

Module Samples.
Import VectorRetriever RetrievalApi PyCall.

(** A collection that answers with three identifiers and two texts. *)
Definition short_answer : QueryResult :=
  mkQueryResult [[lit "id1"; lit "id2"; lit "id3"]]
                [[lit "doc1"; lit "doc2"]]
                [[Some ∅; Some ∅; Some ∅]].

Definition short_collection : Retrieval :=
  Collection.backend true ∅ (fun _ _ => short_answer).

(** A directory of two readable files, three pages in all, and a store
    that accepts everything. *)
Definition two_files : Ingest :=
  Fixture.env (lit "pdfs")
    [(lit "a.pdf", Ok [Fixture.doc "page one"; Fixture.doc "page two"]);
     (lit "b.pdf", Ok [Fixture.doc "page three"])]
    (fun _ => false).

Definition both_files : list Py.str := [lit "pdfs/a.pdf"; lit "pdfs/b.pdf"].

Definition hashing : Hashing := {| str_hash := fun s => s |}.

Definition keyword_request : QueryRequest :=
  mkRequest (lit "施工标准") (Some 3) (Some (lit "混凝土")) None.

Definition plain_request : QueryRequest :=
  mkRequest (lit "混凝土强度") (Some 2) None None.

Definition long_request : QueryRequest :=
  mkRequest (replicate 501 97%N) (Some 3) None None.

Definition fresh : @astate Fixture.test_collection :=
  @mkAstate Fixture.test_collection [] [].

(** chromadb and LangChain answering every call. *)
Definition backend : ChromaManagerInit.Backend :=
  {| ChromaManagerInit.Client := unit;
     ChromaManagerInit.Handle := unit;
     ChromaManagerInit.new_http_client := fun _ _ => Ok tt;
     ChromaManagerInit.new_persistent_client := fun _ => Ok tt;
     ChromaManagerInit.new_chroma := fun _ _ _ _ => Ok tt;
     ChromaManagerInit.handle_similarity_search := fun _ _ _ _ => Ok [] |}.

(** An environment with the given value of [OPENAI_API_KEY]. *)
Definition providers (key : option Py.str) : EmbeddingUtils.Providers :=
  {| EmbeddingUtils.Model := unit;
     EmbeddingUtils.getenv := fun _ => key;
     EmbeddingUtils.new_huggingface := fun _ _ _ => Ok tt;
     EmbeddingUtils.new_openai := fun _ _ _ => Ok tt |}.

(** A Qwen setup: whether the configuration file is there, and models that
    can all be built. *)
Definition qwen (there : bool) : QwenClient.Env :=
  {| QwenClient.LLM := unit;
     QwenClient.Chat := unit;
     QwenClient.Embed := unit;
     QwenClient.conf_exists := there;
     QwenClient.load_dotenv := Ok tt;
     QwenClient.new_tongyi := Ok tt;
     QwenClient.new_chat_tongyi := Ok tt;
     QwenClient.new_dashscope_embeddings := Ok tt |}.

End Samples.

(** * Properties *)

(** ** Python operations *)

Section PyFacts.

Lemma startswith_spec (s p : Py.str) :
  startswith s p = true <-> exists post, s = p ++ post.
Proof.
  revert s; induction p as [|a p IH]; intros s; simpl.
  - split; [intros _; by exists s | done].
  - destruct s as [|b s]; simpl.
    + split; [done | intros [post Hp]; discriminate].
    + rewrite andb_true_iff, N.eqb_eq, IH. split.
      * intros [-> [post ->]]. by exists post.
      * intros [post Hp]. injection Hp as -> ->. eauto.
Qed.

Lemma contains_spec (hay needle : Py.str) :
  contains hay needle = true <-> occurs_in needle hay.
Proof.
  unfold occurs_in. induction hay as [|c hay IH].
  - simpl. rewrite orb_false_r, startswith_spec. split.
    + intros [post Hp]. by exists [], post.
    + intros (pre & post & Hp). symmetry in Hp.
      apply app_eq_nil in Hp as [-> Hp]. apply app_eq_nil in Hp as [-> ->].
      by exists [].
  - change (contains (c :: hay) needle)
      with (startswith (c :: hay) needle || contains hay needle).
    rewrite orb_true_iff, startswith_spec, IH. split.
    + intros [[post Hp] | (pre & post & Hp)].
      * by exists [], post.
      * exists (c :: pre), post. by rewrite Hp.
    + intros (pre & post & Hp). destruct pre as [|c' pre].
      * left. by exists post.
      * right. injection Hp as -> ->. eauto.
Qed.

Lemma range_up_eq (b : Z) (fuel : nat) (i stop : Z) :
  0 < b -> (Z.to_nat (stop - i) <= fuel)%nat ->
  range_up fuel i stop b
  = (fun k : nat => i + Z.of_nat k * b)
      <$> seq 0 (Z.to_nat ((stop - i + b - 1) / b)).
Proof.
  intros Hb. revert i. induction fuel as [|fuel IH]; intros i Hfuel; simpl.
  - assert ((stop - i + b - 1) / b <= 0) as Hle.
    { apply Z.lt_succ_r. apply Z.div_lt_upper_bound; lia. }
    replace (Z.to_nat ((stop - i + b - 1) / b)) with O by lia. done.
  - destruct (Z.ltb_spec i stop) as [Hlt | Hge].
    + assert ((stop - i + b - 1) / b = 1 + (stop - (i + b) + b - 1) / b) as ->.
      { replace (stop - i + b - 1) with (1 * b + (stop - (i + b) + b - 1)) by lia.
        rewrite Z.div_add_l by lia. done. }
      assert (0 <= (stop - (i + b) + b - 1) / b) as Hnn.
      { apply Z.div_pos; lia. }
      rewrite Z2Nat.inj_add by lia. change (Z.to_nat 1) with 1%nat. simpl.
      f_equal; [lia|]. rewrite IH by lia.
      rewrite <- (fmap_S_seq 0), <- list_fmap_compose.
      apply list_fmap_ext. intros _ k _. simpl. lia.
    + assert ((stop - i + b - 1) / b <= 0) as Hle.
      { apply Z.lt_succ_r. apply Z.div_lt_upper_bound; lia. }
      replace (Z.to_nat ((stop - i + b - 1) / b)) with O by lia. done.
Qed.

Lemma range_windows (b : Z) (n : nat) :
  0 < b ->
  range 0 (Z.of_nat n) b
  = Ok ((fun k : nat => Z.of_nat k * b)
          <$> seq 0 (Z.to_nat ((Z.of_nat n + b - 1) / b))).
Proof.
  intros Hb. unfold range.
  destruct (Z.eqb_spec b 0) as [|_]; [lia|].
  destruct (Z.ltb_spec 0 b) as [_|]; [|lia].
  rewrite range_up_eq by lia. f_equal.
  replace (Z.of_nat n - 0) with (Z.of_nat n) by lia.
  apply list_fmap_ext. intros _ k _. lia.
Qed.

Lemma clamp_nonneg (i : Z) (len : nat) :
  0 <= i -> clamp i len = (Z.to_nat i `min` len)%nat.
Proof.
  intros Hi. unfold clamp. destruct (Z.ltb_spec i 0); lia.
Qed.

Lemma slice_window {A} (l : list A) (i b : Z) :
  0 <= i -> 0 <= b ->
  slice l i (i + b) = take (Z.to_nat b) (drop (Z.to_nat i) l).
Proof.
  intros Hi Hb. unfold slice. rewrite !clamp_nonneg by lia.
  destruct (decide (Z.to_nat i <= length l)%nat) as [Hle | Hgt].
  - rewrite (Nat.min_l _ _ Hle).
    destruct (decide (Z.to_nat (i + b) <= length l)%nat) as [Hin | Hout].
    + rewrite Nat.min_l by done. f_equal. lia.
    + rewrite Nat.min_r by lia.
      rewrite !take_ge; [done | |]; rewrite length_drop; lia.
  - rewrite Nat.min_r by lia. rewrite !drop_ge by lia. by rewrite !take_nil.
Qed.

Lemma slice_prefix {A} (l : list A) (k : Z) :
  0 <= k -> slice l 0 k = take (Z.to_nat k) l.
Proof.
  intros Hk. change k with (0 + k) at 1. by rewrite slice_window.
Qed.

End PyFacts.

(** ** Consecutive slices *)

Section Windows.
Context {A : Type}.
Implicit Types l : list A.

Lemma ceil_div_covers (n b : Z) :
  0 < b -> 0 <= n -> n <= (n + b - 1) / b * b.
Proof.
  intros Hb Hn.
  pose proof (Z.div_mod (n + b - 1) b ltac:(lia)) as Hdm.
  pose proof (Z.mod_pos_bound (n + b - 1) b Hb) as Hmod. lia.
Qed.

Lemma ceil_div_tight (n b : Z) :
  0 < b -> 0 < n -> ((n + b - 1) / b - 1) * b < n.
Proof.
  intros Hb Hn.
  pose proof (Z.div_mod (n + b - 1) b ltac:(lia)) as Hdm.
  pose proof (Z.mod_pos_bound (n + b - 1) b Hb) as Hmod. lia.
Qed.

Lemma slices_are_windows l (b : Z) :
  0 < b ->
  (fun i => slice l i (i + b))
    <$> ((fun k : nat => Z.of_nat k * b)
           <$> seq 0 (Z.to_nat ((Z.of_nat (length l) + b - 1) / b)))
  = windows b l.
Proof.
  intros Hb. unfold windows. rewrite <- list_fmap_compose.
  apply list_fmap_ext. intros _ k _. simpl.
  rewrite slice_window by lia. do 2 f_equal. lia.
Qed.

Lemma concat_first_windows l (b c : nat) :
  concat ((fun k : nat => take b (drop (k * b) l)) <$> seq 0 c)
  = take (c * b) l.
Proof.
  induction c as [|c IH]; [done|].
  rewrite seq_S, fmap_app, concat_app, IH. simpl.
  rewrite app_nil_r, take_take_drop. f_equal. lia.
Qed.

Lemma concat_windows l (b : Z) : 0 < b -> concat (windows b l) = l.
Proof.
  intros Hb. unfold windows. rewrite concat_first_windows.
  apply take_ge.
  pose proof (ceil_div_covers (Z.of_nat (length l)) b Hb ltac:(lia)).
  assert (0 <= (Z.of_nat (length l) + b - 1) / b) by (apply Z.div_pos; lia).
  nia.
Qed.


Lemma lookup_windows l (b : Z) (k : nat) (w : list A) :
  windows b l !! k = Some w ->
  w = take (Z.to_nat b) (drop (k * Z.to_nat b) l).
Proof.
  unfold windows. rewrite list_lookup_fmap. intros Hk.
  destruct (seq 0 _ !! k) as [k'|] eqn:Hs; [|done].
  apply lookup_seq in Hs as [-> _]. simpl in Hk. by injection Hk as <-.
Qed.

Lemma windows_sizes l (b : Z) :
  0 < b ->
  Forall (fun w => (0 < length w <= Z.to_nat b)%nat) (windows b l).
Proof.
  intros Hb. unfold windows. apply Forall_fmap, Forall_seq.
  intros k [_ Hk]. simpl in *.
  rewrite length_take, length_drop.
  destruct (decide (length l = 0)%nat) as [Hz | Hnz].
  { rewrite Hz in Hk. change (Z.of_nat 0) with 0 in Hk.
    rewrite Z.add_0_l, Z.div_small in Hk by lia. simpl in Hk. lia. }
  pose proof (ceil_div_tight (Z.of_nat (length l)) b Hb ltac:(lia)).
  assert (0 <= (Z.of_nat (length l) + b - 1) / b) by (apply Z.div_pos; lia).
  nia.
Qed.

Lemma windows_nil (b : Z) : 0 < b -> windows b (@nil A) = [].
Proof.
  intros Hb. unfold windows. simpl.
  replace (0 + b - 1) with (b - 1) by lia. by rewrite Z.div_small by lia.
Qed.

End Windows.

(** ** Rules for running computations *)

Section Rules.
Context {S : Type}.

Lemma post_ret {A} (a : A) (s : S) Q : Q (Ok a) s -> post (ret a) s Q.
Proof. done. Qed.


Lemma post_lift {A} (r : result A) (s : S) Q : Q r s -> post (lift r) s Q.
Proof. done. Qed.

Lemma post_modify (f : S -> S) (s : S) Q : Q (Ok tt) (f s) -> post (modify f) s Q.
Proof. done. Qed.

Lemma post_bind {A B} (m : M S A) (k : A -> M S B) s Q :
  post m s (fun r s' => match r with
                        | Ok a => post (k a) s' Q
                        | Raise e => Q (Raise e) s'
                        end) ->
  post (bind m k) s Q.
Proof. unfold post, bind. by destruct (m s) as [[a|e] s']. Qed.

Lemma post_try {A} (m : M S A) (h : exn -> M S A) s Q :
  post m s (fun r s' => match r with
                        | Ok a => Q (Ok a) s'
                        | Raise e => post (h e) s' Q
                        end) ->
  post (try_except m h) s Q.
Proof. unfold post, try_except. by destruct (m s) as [[a|e] s']. Qed.

Lemma post_mono {A} (m : M S A) s (Q Q' : result A -> S -> Prop) :
  post m s Q -> (forall r s', Q r s' -> Q' r s') -> post m s Q'.
Proof. unfold post. auto. Qed.

(** A loop: [I] holds of the state as long as the body returns; when it
    raises, the loop stops there. *)
Lemma post_for_each {X} (xs : list X) (body : X -> M S unit)
    (I : list X -> S -> Prop) (Q : result unit -> S -> Prop) s :
  I xs s ->
  (forall x rest s', I (x :: rest) s' ->
     post (body x) s' (fun r s'' => match r with
                                    | Ok _ => I rest s''
                                    | Raise e => Q (Raise e) s''
                                    end)) ->
  (forall s', I [] s' -> Q (Ok tt) s') ->
  post (for_each xs body) s Q.
Proof.
  intros HI Hbody Hend. revert s HI.
  induction xs as [|x xs IH]; intros s HI; simpl.
  - by apply post_ret, Hend.
  - apply post_bind. eapply post_mono; [by apply Hbody|].
    intros [[]|e] s'; [apply IH | done].
Qed.

Lemma keeps_post {A} (I : S -> Prop) (m : M S A) s :
  keeps I m -> I s -> post m s (fun _ s' => I s').
Proof. unfold keeps, post. auto. Qed.

Lemma keeps_ret {A} I (a : A) : keeps I (@ret S A a).
Proof. by intros s. Qed.

Lemma keeps_raise {A} I e : keeps I (@raise S A e).
Proof. by intros s. Qed.

Lemma keeps_lift {A} I (r : result A) : keeps I (@lift S A r).
Proof. by intros s. Qed.

Lemma keeps_bind {A B} I (m : M S A) (k : A -> M S B) :
  keeps I m -> (forall a, keeps I (k a)) -> keeps I (bind m k).
Proof.
  intros Hm Hk s Hs. unfold bind. specialize (Hm s Hs).
  destruct (m s) as [[a|e] s']; [by apply Hk | done].
Qed.

Lemma keeps_try {A} I (m : M S A) (h : exn -> M S A) :
  keeps I m -> (forall e, keeps I (h e)) -> keeps I (try_except m h).
Proof.
  intros Hm Hh s Hs. unfold try_except. specialize (Hm s Hs).
  destruct (m s) as [[a|e] s']; [done | by apply Hh].
Qed.

Lemma keeps_for_each {X} I (xs : list X) (body : X -> M S unit) :
  (forall x, keeps I (body x)) -> keeps I (for_each xs body).
Proof.
  intros Hb. induction xs as [|x xs IH]; simpl.
  - apply keeps_ret.
  - apply keeps_bind; auto.
Qed.

Lemma keeps_map_m {X Y} I (f : X -> M S Y) (xs : list X) :
  (forall x, keeps I (f x)) -> keeps I (map_m f xs).
Proof.
  intros Hf. induction xs as [|x xs IH]; simpl.
  - apply keeps_ret.
  - apply keeps_bind; [done|]. intros y. apply keeps_bind; [done|].
    intros ys. apply keeps_ret.
Qed.

Lemma bind_ret_r {A} (m : M S A) (s : S) : bind m ret s = m s.
Proof. unfold bind, ret. by destruct (m s) as [[a|e] s']. Qed.

End Rules.

(** ** Retrieval *)

Section RetrievalFacts.
Import VectorRetriever.
Context {T : Text} {R : Retrieval}.
Variable self : VectorRetriever.t.

(** The vector search asks the collection once, for [top_k] results, and
    asks nothing when the query cannot be embedded. *)
Lemma similarity_search_calls query filter_conditions cs :
  (similarity_search self query filter_conditions cs).2
  = match embed_query query with
    | Ok e => cs ++ [CollectionQuery e (top_k self) filter_conditions]
    | Raise _ => cs
    end.
Proof.
  unfold similarity_search, bind at 1, lift at 1.
  destruct (embed_query query) as [e|err]; [|done].
  unfold bind at 1, call_query.
  destruct (collection_query e (top_k self) filter_conditions) as [res|err];
    [|done].
  unfold bind at 1, lift at 1.
  destruct (getitem (ids res) 0) as [ids0|err]; [|done].
  match goal with
  | |- (map_m ?f ?xs ?s).2 = _ =>
      apply (keeps_map_m (fun s' => s' = s) f xs); [|done]
  end.
  intros i. repeat (apply keeps_bind; [apply keeps_lift | intros ?]).
  apply keeps_ret.
Qed.

Lemma keyword_match_spec keyword doc :
  keyword_match keyword doc = true
  <-> occurs_in (lower keyword) (lower (page_content doc)).
Proof. apply contains_spec. Qed.

Lemma hybrid_search_filters query c kw filter_conditions cs :
  hybrid_search self query (Some (c :: kw)) filter_conditions cs
  = match similarity_search self query filter_conditions cs with
    | (Ok vector_results, cs') =>
        (Ok (slice (List.filter (keyword_match (c :: kw)) vector_results)
                   0 (top_k self)), cs')
    | (Raise e, cs') => (Raise e, cs')
    end.
Proof.
  unfold hybrid_search, bind.
  by destruct (similarity_search self query filter_conditions cs) as [[vr|e] cs'].
Qed.

End RetrievalFacts.

Section CollectionFacts.
Import VectorRetriever Collection.

Lemma foldl_upsert_fresh
    (history : list (list N * list N * option (gmap (list N) mdval)))
    (c : gmap (list N) (list N * option (gmap (list N) mdval))) (id : list N) :
  id ∉ ((fun r => r.1.1) <$> history) ->
  c !! id = None ->
  foldl (fun c r => upsert (r.1.1) (r.1.2) (r.2) c) c history !! id = None.
Proof.
  revert c. induction history as [|r history IH]; intros c Hid Hc; [done|].
  simpl. rewrite fmap_cons, not_elem_of_cons in Hid. destruct Hid as [Hne Hid].
  apply IH; [done|]. unfold upsert. by rewrite lookup_insert_ne.
Qed.

Lemma after_fresh history (id : list N) :
  id ∉ ((fun r => r.1.1) <$> history) -> after history !! id = None.
Proof. intros Hid. by apply foldl_upsert_fresh. Qed.

(** Fetching one identifier gives its record, or empty lists. *)
Lemma get_one (c : gmap (list N) (list N * option (gmap (list N) mdval)))
    (id : list N) :
  get c [id] = match c !! id with
               | Some r => mkGetResult [id] [r.1] [r.2]
               | None => mkGetResult [] [] []
               end.
Proof. unfold get. simpl. by destruct (c !! id). Qed.

Lemma get_by_id_up c nearest (id : list N) cs :
  @get_by_id (backend true c nearest) id cs
  = (Ok (match c !! id with
         | Some r => Some (mkDocument (r.1) (or_empty (r.2)))
         | None => None
         end),
     cs ++ [CollectionGet [id]]).
Proof.
  unfold get_by_id, bind at 1, call_get. simpl collection_get.
  rewrite get_one. by destruct (c !! id) as [r|].
Qed.

End CollectionFacts.

(** C1.  With a non-empty keyword and [top_k >= 0], [hybrid_search] makes
    the calls of one [similarity_search] and no other (the collection is
    asked once, for [top_k] results); its result is the result of that
    search filtered by the keyword test and cut to the first [top_k]; the
    keyword test holds exactly when the lowered keyword occurs in the
    lowered text.  On the three texts of the unit test, with keyword
    "混凝土", the answer is the single first text. *)
Theorem hybrid_search_keyword :
  (forall (T : Text) (R : VectorRetriever.Retrieval) (self : VectorRetriever.t)
          (query keyword : Py.str) filter_conditions cs,
      keyword <> [] -> 0 <= VectorRetriever.top_k self ->
      (VectorRetriever.hybrid_search self query (Some keyword) filter_conditions cs).2
      = (VectorRetriever.similarity_search self query filter_conditions cs).2
      /\ (VectorRetriever.similarity_search self query filter_conditions cs).2
         = match VectorRetriever.embed_query query with
           | Ok e => cs ++ [VectorRetriever.CollectionQuery
                              e (VectorRetriever.top_k self) filter_conditions]
           | Raise _ => cs
           end
      /\ (VectorRetriever.hybrid_search self query (Some keyword) filter_conditions cs).1
         = match (VectorRetriever.similarity_search self query filter_conditions cs).1 with
           | Ok vector_results =>
               Ok (take (Z.to_nat (VectorRetriever.top_k self))
                        (List.filter (VectorRetriever.keyword_match keyword)
                                     vector_results))
           | Raise e => Raise e
           end
      /\ forall doc,
           VectorRetriever.keyword_match keyword doc = true
           <-> occurs_in (lower keyword) (lower (page_content doc)))
  /\ (@VectorRetriever.hybrid_search Fixture.ascii_text Fixture.test_collection
        Fixture.test_retriever (lit "施工标准") (Some (lit "混凝土")) None []).1
     = Ok [Fixture.doc "混凝土强度标准"].
Proof.
  split; [|by vm_compute].
  intros T R self query [|c kw] filter_conditions cs Hkw Hk; [done|].
  rewrite hybrid_search_filters.
  pose proof (similarity_search_calls self query filter_conditions cs) as Hcalls.
  destruct (VectorRetriever.similarity_search self query filter_conditions cs)
    as [[vr|e] cs']; simpl in *.
  - repeat split; try done.
    + by rewrite slice_prefix.
    + by apply keyword_match_spec.
    + by apply keyword_match_spec.
  - repeat split; try done; by apply keyword_match_spec.
Qed.

Lemma hybrid_search_keyword_witness :
  lit "混凝土" <> []
  /\ 0 <= VectorRetriever.top_k Fixture.test_retriever
  /\ (@VectorRetriever.hybrid_search Fixture.ascii_text Fixture.test_collection
        Fixture.test_retriever (lit "施工标准") (Some (lit "混凝土")) None []).1
     = match (@VectorRetriever.similarity_search Fixture.test_collection
                Fixture.test_retriever (lit "施工标准") None []).1 with
       | Ok vector_results =>
           Ok (take 3 (List.filter
                         (@VectorRetriever.keyword_match Fixture.ascii_text
                            (lit "混凝土"))
                         vector_results))
       | Raise e => Raise e
       end.
Proof.
  split; [by vm_compute|]. split; [by vm_compute|].
  apply (proj1 hybrid_search_keyword Fixture.ascii_text Fixture.test_collection
               Fixture.test_retriever (lit "施工标准") (lit "混凝土") None []).
  - by vm_compute.
  - by vm_compute.
Defined.

(** C10.  Without a keyword, or with the empty keyword, [hybrid_search] is
    [similarity_search]: same result, same calls, nothing filtered and
    nothing cut. *)
Theorem hybrid_search_without_keyword (T : Text) (R : VectorRetriever.Retrieval)
    (self : VectorRetriever.t) (query : Py.str) filter_conditions cs :
  VectorRetriever.hybrid_search self query None filter_conditions cs
  = VectorRetriever.similarity_search self query filter_conditions cs
  /\ VectorRetriever.hybrid_search self query (Some []) filter_conditions cs
     = VectorRetriever.similarity_search self query filter_conditions cs.
Proof.
  split; unfold VectorRetriever.hybrid_search; apply bind_ret_r.
Qed.

(** C9.  Over a collection built by any history of upserts, looking up an
    identifier that the history never inserted returns the absent value
    [None] and raises nothing; whatever the collection and the identifier,
    [get_by_id] raises only when the index itself fails; and over any
    collaborator, an answer without documents gives [None]. *)
Theorem get_by_id_absent
    (history : list (list N * list N * option (gmap (list N) mdval)))
    nearest (id : list N) :
  id ∉ ((fun r => r.1.1) <$> history) ->
  (forall cs,
      @VectorRetriever.get_by_id
        (Collection.backend true (Collection.after history) nearest) id cs
      = (Ok None, cs ++ [VectorRetriever.CollectionGet [id]]))
  /\ (forall up c (id' : list N) cs e,
        (@VectorRetriever.get_by_id (Collection.backend up c nearest) id' cs).1
        = Raise e -> up = false)
  /\ (forall (R : VectorRetriever.Retrieval) (id' : list N) cs r,
        VectorRetriever.collection_get [id'] = Ok r ->
        VectorRetriever.got_documents r = [] ->
        VectorRetriever.get_by_id id' cs
        = (Ok None, cs ++ [VectorRetriever.CollectionGet [id']])).
Proof.
  intros Hid. split_and!.
  - intros cs. rewrite get_by_id_up. by rewrite after_fresh.
  - intros [|] c id' cs e; [|done]. by rewrite get_by_id_up.
  - intros R id' cs r Hget Hnone.
    unfold VectorRetriever.get_by_id, bind at 1, VectorRetriever.call_get.
    by rewrite Hget, Hnone.
Qed.

Lemma get_by_id_absent_witness :
  (lit "id9" ∉ ((fun r : list N * list N * option (gmap (list N) mdval) => r.1.1)
                  <$> [(lit "id1", lit "text", None)]))
  /\ @VectorRetriever.get_by_id
       (Collection.backend true
          (Collection.after [(lit "id1", lit "text", None)])
          (fun _ _ => Fixture.three_results))
       (lit "id9") []
     = (Ok None, [VectorRetriever.CollectionGet [lit "id9"]]).
Proof.
  assert (lit "id9" ∉ ((fun r : list N * list N * option (gmap (list N) mdval) => r.1.1)
                         <$> [(lit "id1", lit "text", None)])) as Hfresh.
  { vm_compute. intros Hin. apply list_elem_of_singleton in Hin. discriminate. }
  split; [exact Hfresh|].
  exact (proj1 (get_by_id_absent [(lit "id1", lit "text", None)]
                  (fun _ _ => Fixture.three_results) (lit "id9") Hfresh) []).
Defined.

(** ** Ingestion: what each operation does to the call log *)

Section IngestFacts.
Import ChromaManager PDFProcessor.
Context {T : Text} {E : Ingest}.
Variable self : PDFProcessor.t.

Lemma writes_app cs1 cs2 : writes (cs1 ++ cs2) = writes cs1 ++ writes cs2.
Proof. apply omap_app. Qed.

Lemma loads_app cs1 cs2 : loads (cs1 ++ cs2) = loads cs1 ++ loads cs2.
Proof. apply omap_app. Qed.

Lemma keeps_log (P : list call -> Prop) l msg : keeps (on_calls P) (log l msg).
Proof. by intros w. Qed.

Lemma keeps_print (P : list call -> Prop) msg : keeps (on_calls P) (print msg).
Proof. by intros w. Qed.

Lemma keeps_uuid4 (P : list call -> Prop) : keeps (on_calls P) call_uuid4.
Proof. by intros w. Qed.

Lemma keeps_call_loader P path :
  stable is_loader_load P -> keeps (on_calls P) (call_loader path).
Proof. intros HP w Hw. by apply HP. Qed.

Lemma keeps_call_split P split documents :
  stable is_split P -> keeps (on_calls P) (call_split split documents).
Proof. intros HP w Hw. by apply HP. Qed.

Lemma keeps_call_store_add P docs :
  stable is_store_add P -> keeps (on_calls P) (call_store_add docs).
Proof.
  intros HP w Hw. unfold call_store_add.
  destruct (store_add_documents (w_store w) docs) as [r s']. by apply HP.
Qed.

Lemma keeps_prepare P docs : keeps (on_calls P) (_prepare_documents docs).
Proof.
  unfold _prepare_documents. destruct (is_empty docs); [apply keeps_ret|].
  destruct docs as [l|l|l|n].
  - apply keeps_ret.
  - apply keeps_map_m. intros text.
    apply keeps_bind; [apply keeps_uuid4 | intros id; apply keeps_ret].
  - apply keeps_map_m. intros [[text|] md]; [apply keeps_ret | apply keeps_raise].
  - apply keeps_raise.
Qed.

Lemma keeps_add_documents P docs :
  stable is_store_add P -> keeps (on_calls P) (add_documents docs).
Proof.
  intros HP. unfold add_documents. apply keeps_try.
  - destruct (is_empty docs).
    + apply keeps_bind; [apply keeps_log | intros _; apply keeps_ret].
    + apply keeps_bind; [apply keeps_prepare | intros processed].
      apply keeps_bind; [by apply keeps_call_store_add | intros doc_ids].
      apply keeps_bind; [apply keeps_log | intros _; apply keeps_ret].
  - intros e. apply keeps_bind; [apply keeps_log | intros _; apply keeps_raise].
Qed.

Lemma keeps_insert_docs P docs batch_size :
  stable is_store_add P ->
  keeps (on_calls P) (insert_docs_chromadb docs batch_size).
Proof.
  intros HP. unfold insert_docs_chromadb. destruct docs as [|d docs].
  { apply keeps_log. }
  apply keeps_bind; [apply keeps_log | intros _].
  apply keeps_bind; [apply keeps_lift | intros total_batches].
  apply keeps_try.
  - apply keeps_bind; [apply keeps_lift | intros starts].
    apply keeps_bind; [|intros _; apply keeps_log].
    apply keeps_for_each. intros i.
    apply keeps_bind; [by apply keeps_add_documents | intros _; apply keeps_ret].
  - intros e. apply keeps_bind; [apply keeps_log | intros _; apply keeps_raise].
Qed.

Lemma keeps_load_pdf_content P pdf_path :
  stable is_loader_load P -> keeps (on_calls P) (load_pdf_content pdf_path).
Proof.
  intros HP. unfold load_pdf_content. apply keeps_try.
  - apply keeps_bind; [by apply keeps_call_loader | intros docs].
    apply keeps_bind; [apply keeps_log | intros _; apply keeps_ret].
  - intros e. apply keeps_bind; [apply keeps_log | intros _; apply keeps_raise].
Qed.

Lemma keeps_load_group P group acc :
  stable is_loader_load P -> keeps (on_calls P) (load_group group acc).
Proof.
  intros HP. revert acc. induction group as [|p group IH]; intros acc; simpl.
  - apply keeps_ret.
  - apply keeps_bind; [by apply keeps_load_pdf_content | intros docs; apply IH].
Qed.

Lemma keeps_split_text P documents :
  stable is_split P -> keeps (on_calls P) (split_text self documents).
Proof.
  intros HP. unfold split_text.
  apply keeps_bind; [apply keeps_lift | intros text_splitter].
  apply keeps_try.
  - apply keeps_bind; [by apply keeps_call_split | intros docs].
    apply keeps_bind; [apply keeps_log | intros _; apply keeps_ret].
  - intros e. apply keeps_bind; [apply keeps_log | intros _; apply keeps_raise].
Qed.

(** The invariants used below. *)
Lemma stable_no_failure_load :
  stable is_loader_load (fun cs => existsb is_failed_write cs = false).
Proof.
  intros cs [p ok|ds ok|ds ok] Hcs Hc; try done.
  by rewrite existsb_app, Hcs.
Qed.

Lemma stable_no_failure_split :
  stable is_split (fun cs => existsb is_failed_write cs = false).
Proof.
  intros cs [p ok|ds ok|ds ok] Hcs Hc; try done.
  by rewrite existsb_app, Hcs.
Qed.

Lemma stable_loads_split L : stable is_split (fun cs => loads cs = L).
Proof.
  intros cs [p ok|ds ok|ds ok] Hcs Hc; try done.
  rewrite loads_app, Hcs. apply app_nil_r.
Qed.

Lemma stable_loads_store_add L : stable is_store_add (fun cs => loads cs = L).
Proof.
  intros cs [p ok|ds ok|ds ok] Hcs Hc; try done.
  rewrite loads_app, Hcs. apply app_nil_r.
Qed.

Lemma stable_writes_load L : stable is_loader_load (fun cs => writes cs = L).
Proof.
  intros cs [p ok|ds ok|ds ok] Hcs Hc; try done.
  rewrite writes_app, Hcs. apply app_nil_r.
Qed.

End IngestFacts.

(** ** Store writes *)

Section WriteFacts.
Import ChromaManager PDFProcessor.
Context {E : Ingest}.

(** One call of [add_documents] from a state without failed write: if it
    returns, no write has failed; if it raises, it raises its own
    [RuntimeError]. *)
Lemma add_documents_post docs (w : world) :
  no_failed_write w ->
  post (add_documents docs) w
       (fun r w' => match r with
                    | Ok _ => no_failed_write w'
                    | Raise e => e = Exn RuntimeError "Document addition failed"
                    end).
Proof.
  intros Hw. unfold add_documents. apply post_try.
  destruct (is_empty docs).
  { apply post_bind. by apply post_modify, post_ret. }
  apply post_bind.
  eapply post_mono;
    [exact (keeps_post _ _ w
              (keeps_prepare (fun cs => existsb is_failed_write cs = false) docs)
              Hw)|].
  intros [processed|e] w1 Hw1; [|done].
  apply post_bind. unfold post at 1, call_store_add.
  destruct (store_add_documents (w_store w1) processed) as [[doc_ids|e] s'];
    simpl; [|done].
  apply post_bind, post_modify, post_ret.
  unfold no_failed_write in *. simpl. by rewrite existsb_app, Hw1.
Qed.

Lemma insert_docs_post docs batch_size (w : world) :
  no_failed_write w ->
  post (insert_docs_chromadb docs batch_size) w
       (fun r w' => match r with
                    | Ok _ => no_failed_write w'
                    | Raise e =>
                        no_failed_write w'
                        \/ e = Exn RuntimeError "document insertion failed"
                    end).
Proof.
  intros Hw. unfold insert_docs_chromadb. destruct docs as [|d docs].
  { by apply post_modify. }
  apply post_bind, post_modify. apply post_bind, post_lift.
  destruct (floordiv _ _) as [total_batches|e]; [|by left].
  apply post_try, post_bind, post_lift.
  destruct (range _ _ _) as [starts|e]; [|by right].
  apply post_bind.
  apply (post_for_each _ _ (fun _ w' => no_failed_write w')); [done| |].
  - intros i rest w1 Hw1. apply post_bind.
    eapply post_mono; [by apply add_documents_post|].
    intros [ids|e] w2 Hw2; [by apply post_ret | by right].
  - intros w1 Hw1. by apply post_modify.
Qed.

(** A non-empty batch that the store accepts is written as it is. *)
Lemma add_documents_accepted batch (w : world) :
  batch <> [] ->
  is_raise (store_add_documents (w_store w) batch).1 = false ->
  post (add_documents (Documents batch)) w
       (fun r w' => is_raise r = false
                    /\ w_calls w' = w_calls w ++ [StoreAdd batch true]).
Proof.
  intros Hne Hok. destruct batch as [|d batch]; [done|].
  unfold add_documents, post, try_except, bind, _prepare_documents,
    call_store_add, ret. simpl.
  destruct (store_add_documents (w_store w) (d :: batch)) as [[ids|e] s'];
    simpl in *; [done | discriminate].
Qed.

(** The batched insertion over a store that accepts every batch. *)
Lemma insert_docs_accepted (docs : list Document) (b : Z) (w : world) :
  docs <> [] -> 0 < b ->
  (forall s batch, batch <> [] ->
                   is_raise (store_add_documents s batch).1 = false) ->
  post (insert_docs_chromadb docs b) w
       (fun r w' =>
          r = Ok tt
          /\ w_calls w'
             = w_calls w ++ ((fun batch => StoreAdd batch true) <$> windows b docs)).
Proof.
  intros Hne Hb Hstore.
  pose proof (windows_sizes docs b Hb) as Hsizes.
  rewrite <- (slices_are_windows docs b Hb).
  rewrite <- (slices_are_windows docs b Hb) in Hsizes.
  unfold insert_docs_chromadb. destruct docs as [|d docs']; [done|].
  set (docs := d :: docs') in *.
  apply post_bind, post_modify. apply post_bind, post_lift.
  unfold floordiv. destruct (Z.eqb_spec b 0) as [|_]; [lia|].
  apply post_try, post_bind, post_lift. rewrite range_windows by done.
  set (starts := (fun k : nat => Z.of_nat k * b) <$> _) in *.
  apply post_bind.
  apply (post_for_each _ _
           (fun rest (w' : world) =>
              exists done_,
                starts = done_ ++ rest
                /\ w_calls w'
                   = w_calls w
                     ++ ((fun batch => StoreAdd batch true)
                           <$> ((fun i => slice docs i (i + b)) <$> done_)))).
  - exists []. split; [done|]. simpl. by rewrite app_nil_r.
  - intros i rest w1 (done_ & Hsplit & Hcalls).
    assert (slice docs i (i + b) <> []) as Hbatch.
    { rewrite Hsplit, fmap_app, Forall_app, fmap_cons, Forall_cons in Hsizes.
      destruct Hsizes as (_ & Hi & _).
      intros Hnil. rewrite Hnil in Hi. simpl in Hi. lia. }
    apply post_bind. eapply post_mono.
    { apply add_documents_accepted; [done | by apply Hstore]. }
    intros [ids|e] w2 [Hr Hw2]; [|done]. apply post_ret.
    exists (done_ ++ [i]). split; [by rewrite <- app_assoc|].
    rewrite Hw2, Hcalls, !fmap_app, <- app_assoc. done.
  - intros w1 (done_ & Hsplit & Hcalls). apply post_modify.
    rewrite app_nil_r in Hsplit. by subst done_.
Qed.



End WriteFacts.


(** C7.  Adding the empty list, in any of the accepted input forms,
    returns the empty list of identifiers and raises nothing; the store, the
    calls made to it and the identifier supply are as before, and the only
    effect is one warning in the log. *)
Theorem add_documents_empty (E : Ingest) (w : world) :
  let w' := mkWorld _ (w_store w) (w_uuid w) (w_calls w)
              (w_log w ++ [(WARNING, "Attempted to add empty documents list")])
              (w_stdout w) in
  ChromaManager.add_documents (ChromaManager.Documents []) w = (Ok [], w')
  /\ ChromaManager.add_documents (ChromaManager.Strings []) w = (Ok [], w')
  /\ ChromaManager.add_documents (ChromaManager.Dicts []) w = (Ok [], w').
Proof. done. Qed.




(** ** Group processing *)

Section GroupFacts.
Import ChromaManager PDFProcessor.
Context {T : Text} {E : Ingest}.
Variable self : PDFProcessor.t.

Lemma filter_none {A} (f : A -> bool) (l : list A) :
  Forall (fun x => f x = false) l -> List.filter f l = [].
Proof.
  induction 1 as [|x l Hx _ IH]; [done|]. simpl. by rewrite Hx.
Qed.

Lemma attempted_all_ok (group : list Py.str) :
  Forall (fun f => is_raise (loader_load f) = false) group ->
  attempted group = group.
Proof.
  induction 1 as [|f group Hf _ IH]; [done|]. simpl. by rewrite Hf, IH.
Qed.

(** The loading loop reads the files in order and stops at the first one
    that fails. *)
Lemma load_group_loads group acc (w : world) :
  post (load_group group acc) w
       (fun _ w' => loads (w_calls w') = loads (w_calls w) ++ attempted group).
Proof.
  revert acc w. induction group as [|p group IH]; intros acc w.
  - unfold post. simpl. by rewrite app_nil_r.
  - specialize (IH (acc ++ match loader_load p with Ok d => d | Raise _ => [] end)).
    unfold post in *.
    simpl load_group. unfold bind at 1, load_pdf_content, try_except,
      bind at 1, call_loader.
    simpl attempted. destruct (loader_load p) as [docs|e]; simpl.
    + rewrite IH. simpl. by rewrite loads_app, <- app_assoc.
    + by rewrite loads_app.
Qed.

Lemma process_pdfs_group_unfold group :
  process_pdfs_group self group
  = try_except
      (pdf_contents <~ load_group group [] ;; split_and_insert self pdf_contents)
      (fun e => log ERROR "processing the PDF group failed").
Proof. done. Qed.

Lemma keeps_split_and_insert_loads L pdf_contents :
  keeps (on_calls (fun cs => loads cs = L)) (split_and_insert self pdf_contents).
Proof.
  unfold split_and_insert. destruct pdf_contents as [|d ds]; [apply keeps_ret|].
  apply keeps_bind.
  - apply keeps_split_text, stable_loads_split.
  - intros [|c cs]; [apply keeps_ret|].
    apply keeps_insert_docs, stable_loads_store_add.
Qed.

Lemma split_and_insert_post pdf_contents (w : world) :
  no_failed_write w ->
  post (split_and_insert self pdf_contents) w
       (fun r w' => match r with
                    | Ok _ => no_failed_write w'
                    | Raise _ => True
                    end).
Proof.
  intros Hw. unfold split_and_insert.
  destruct pdf_contents as [|d ds]; [by apply post_ret|].
  apply post_bind. eapply post_mono.
  { apply (keeps_post (on_calls (fun cs => existsb is_failed_write cs = false))
             (split_text self (d :: ds)) w); [|done].
    apply keeps_split_text, stable_no_failure_split. }
  intros [[|c cs]|e] w1 Hw1; [by apply post_ret | | done].
  eapply post_mono; [by apply insert_docs_post|].
  by intros [[]|e] w2 Hw2.
Qed.

(** The group processor always returns normally. *)
Lemma process_pdfs_group_returns group (w : world) :
  (process_pdfs_group self group w).1 = Ok tt.
Proof.
  rewrite process_pdfs_group_unfold. unfold try_except.
  by destruct ((pdf_contents <~ load_group group [] ;;
                split_and_insert self pdf_contents) w) as [[[]|e] w1].
Qed.

Lemma process_pdfs_group_loads group (w : world) :
  loads (w_calls (process_pdfs_group self group w).2)
  = loads (w_calls w) ++ attempted group.
Proof.
  rewrite process_pdfs_group_unfold.
  apply (post_try _ _ w (fun _ w' => loads (w_calls w') = _)).
  eapply post_mono with
    (Q := fun _ w' => loads (w_calls w') = loads (w_calls w) ++ attempted group).
  - apply post_bind. eapply post_mono; [apply load_group_loads|].
    intros [pdf_contents|e] w1 Hw1; [|done].
    by apply (keeps_post _ _ w1 (keeps_split_and_insert_loads _ pdf_contents)).
  - by intros [[]|e] w1 Hw1.
Qed.

(** When a write fails inside a group, the group processor ends on an
    error record in the log. *)
Lemma process_pdfs_group_logs group (w : world) :
  no_failed_write w ->
  existsb is_failed_write (w_calls (process_pdfs_group self group w).2) = true ->
  last (w_log (process_pdfs_group self group w).2)
  = Some (ERROR, "processing the PDF group failed").
Proof.
  intros Hw. rewrite process_pdfs_group_unfold.
  apply (post_try _ _ w
           (fun _ w' => existsb is_failed_write (w_calls w') = true ->
                        last (w_log w') = Some (ERROR, _))).
  apply post_bind. eapply post_mono.
  { apply (keeps_post (on_calls (fun cs => existsb is_failed_write cs = false))
             (load_group group []) w); [|done].
    apply keeps_load_group, stable_no_failure_load. }
  intros [pdf_contents|e] w1 Hw1.
  - eapply post_mono; [by apply split_and_insert_post|].
    intros [[]|e] w2 Hw2.
    + unfold no_failed_write in Hw2. by rewrite Hw2.
    + intros _. unfold post. simpl. by rewrite last_snoc.
  - intros _. unfold post. simpl. by rewrite last_snoc.
Qed.

(** Whatever fails inside a group, the group processor ends on an error
    record in the log. *)
Lemma process_pdfs_group_logs_failure group (w : world) :
  is_raise ((pdf_contents <~ load_group group [] ;;
             split_and_insert self pdf_contents) w).1 = true ->
  last (w_log (process_pdfs_group self group w).2)
  = Some (ERROR, "processing the PDF group failed").
Proof.
  rewrite process_pdfs_group_unfold. unfold try_except.
  destruct ((pdf_contents <~ load_group group [] ;;
             split_and_insert self pdf_contents) w) as [[[]|e] w1]; [done|].
  intros _. simpl. by rewrite last_snoc.
Qed.

(** The whole run over the discovered files. *)
Lemma process_pdfs_run pdf_files (w : world) :
  0 < file_group_num self ->
  (load_pdf_files self w).1 = Ok pdf_files ->
  post (process_pdfs self) w
       (fun r w' =>
          r = Ok tt
          /\ loads (w_calls w')
             = loads (w_calls w)
               ++ concat (attempted <$> windows (file_group_num self) pdf_files)).
Proof.
  intros Hg Hfiles.
  rewrite <- (slices_are_windows pdf_files _ Hg).
  unfold process_pdfs. apply post_bind, post_modify.
  apply post_try, post_bind.
  unfold load_pdf_files in *.
  destruct (map _ _) as [|f files] eqn:Hmap; [done|].
  simpl in Hfiles. injection Hfiles as <-.
  apply post_bind, post_modify, post_ret.
  set (pdf_files := f :: files) in *.
  apply post_bind, post_lift. rewrite range_windows by done.
  set (starts := (fun k : nat => Z.of_nat k * file_group_num self) <$> _).
  set (groups_of := fun xs : list Z =>
         (fun i => slice pdf_files i (i + file_group_num self)) <$> xs).
  apply post_bind.
  apply (post_for_each _ _
           (fun rest (w' : world) =>
              exists done_,
                starts = done_ ++ rest
                /\ loads (w_calls w')
                   = loads (w_calls w)
                     ++ concat (attempted <$> groups_of done_))).
  - exists []. split; [done|]. simpl. by rewrite app_nil_r.
  - intros i rest w1 (done_ & Hsplit & Hloads).
    apply post_bind, post_modify.
    unfold post. rewrite process_pdfs_group_returns, process_pdfs_group_loads.
    exists (done_ ++ [i]). split; [by rewrite <- app_assoc|].
    simpl. unfold groups_of. rewrite Hloads, !fmap_app, concat_app. simpl.
    by rewrite app_nil_r, app_assoc.
  - intros w1 (done_ & Hsplit & Hloads).
    apply post_bind, post_modify, post_modify.
    rewrite app_nil_r in Hsplit. by subst done_.
Qed.

End GroupFacts.

(** C6.  When no file of the directory ends in [.pdf] (case ignored), the
    scan raises its [ValueError] without touching anything, the run raises,
    and the run leaves the store and the calls made to the collaborators as
    they were: no store write, and the same collection statistics. *)
Theorem no_pdf_no_write (T : Text) (E : Ingest) (self : PDFProcessor.t)
    (w : world) :
  Forall (fun file => endswith (lower file) (lit ".pdf") = false)
         (listdir (PDFProcessor.directory self)) ->
  PDFProcessor.load_pdf_files self w
  = (Raise (Exn ValueError "no PDF file found in the directory"), w)
  /\ (PDFProcessor.process_pdfs self w).1
     = Raise (Exn RuntimeError "PDF processing failed")
  /\ w_store (PDFProcessor.process_pdfs self w).2 = w_store w
  /\ w_calls (PDFProcessor.process_pdfs self w).2 = w_calls w
  /\ (ChromaManager.get_collection_stats (PDFProcessor.process_pdfs self w).2).1
     = (ChromaManager.get_collection_stats w).1.
Proof.
  intros Hnone. apply filter_none in Hnone.
  unfold PDFProcessor.process_pdfs, PDFProcessor.load_pdf_files.
  rewrite Hnone. simpl. split_and!; try done.
  unfold ChromaManager.get_collection_stats, try_except. simpl.
  by destruct (store_stats (w_store w)).
Qed.

Lemma no_pdf_no_write_witness :
  Forall (fun file => endswith (@lower Fixture.ascii_text file) (lit ".pdf") = false)
         (@listdir Fixture.no_pdf
            (PDFProcessor.directory (Fixture.processor 80 6)))
  /\ (@PDFProcessor.process_pdfs Fixture.ascii_text Fixture.no_pdf
        (Fixture.processor 80 6) (@Fixture.empty_world Fixture.no_pdf [])).1
     = Raise (Exn RuntimeError "PDF processing failed")
  /\ w_calls (@PDFProcessor.process_pdfs Fixture.ascii_text Fixture.no_pdf
                (Fixture.processor 80 6)
                (@Fixture.empty_world Fixture.no_pdf [])).2 = [].
Proof.
  assert (Forall (fun file => endswith (@lower Fixture.ascii_text file) (lit ".pdf") = false)
            (@listdir Fixture.no_pdf
               (PDFProcessor.directory (Fixture.processor 80 6)))) as Hnone.
  { vm_compute. by repeat constructor. }
  destruct (no_pdf_no_write Fixture.ascii_text Fixture.no_pdf
              (Fixture.processor 80 6) (@Fixture.empty_world Fixture.no_pdf [])
              Hnone) as (_ & Hr & _ & Hcalls & _).
  split_and!; [exact Hnone | exact Hr | exact Hcalls].
Defined.

(** C3, as the code has it.  From a state without failed write:
    [add_documents] and [insert_docs_chromadb] surface a write failure,
    each ending in its own [RuntimeError] whenever a store write has failed;
    [process_pdfs_group] catches that error: it always returns normally,
    and when a write failed inside it, it ends on an error record in the
    log. *)
Theorem write_failure_raised_then_logged (T : Text) (E : Ingest)
    (self : PDFProcessor.t) (w : world) :
  no_failed_write w ->
  (forall docs,
      surfaces_write_failure (ChromaManager.add_documents docs) w
      /\ forall e, (ChromaManager.add_documents docs w).1 = Raise e ->
                   e = Exn RuntimeError "Document addition failed")
  /\ (forall docs b,
        surfaces_write_failure (PDFProcessor.insert_docs_chromadb docs b) w
        /\ (existsb is_failed_write
              (w_calls (PDFProcessor.insert_docs_chromadb docs b w).2) = true ->
            (PDFProcessor.insert_docs_chromadb docs b w).1
            = Raise (Exn RuntimeError "document insertion failed")))
  /\ (forall group,
        (PDFProcessor.process_pdfs_group self group w).1 = Ok tt
        /\ (existsb is_failed_write
              (w_calls (PDFProcessor.process_pdfs_group self group w).2) = true ->
            last (w_log (PDFProcessor.process_pdfs_group self group w).2)
            = Some (ERROR, "processing the PDF group failed"))).
Proof.
  intros Hw. split_and!.
  - intros docs. pose proof (add_documents_post docs w Hw) as Hpost.
    unfold post, surfaces_write_failure in *.
    destruct (ChromaManager.add_documents docs w) as [[ids|e] w1]; simpl in *.
    + unfold no_failed_write in Hpost. rewrite Hpost. by split.
    + split; [done|]. by intros e' [= <-].
  - intros docs b. pose proof (insert_docs_post docs b w Hw) as Hpost.
    unfold post, surfaces_write_failure in *.
    destruct (PDFProcessor.insert_docs_chromadb docs b w) as [[[]|e] w1];
      simpl in *.
    + unfold no_failed_write in Hpost. rewrite Hpost. by split.
    + split; [done|]. intros Hfailed.
      destruct Hpost as [Hnf | ->]; [|done].
      unfold no_failed_write in Hnf. by rewrite Hnf in Hfailed.
  - intros group. split.
    + apply process_pdfs_group_returns.
    + by apply process_pdfs_group_logs.
Qed.

Lemma write_failure_raised_then_logged_witness :
  no_failed_write (@Fixture.empty_world Fixture.one_refused [])
  /\ (@PDFProcessor.insert_docs_chromadb Fixture.one_refused
        [Fixture.doc "BAD"] 6 (@Fixture.empty_world Fixture.one_refused [])).1
     = Raise (Exn RuntimeError "document insertion failed").
Proof.
  assert (no_failed_write (@Fixture.empty_world Fixture.one_refused [])) as Hw
    by done.
  split; [exact Hw|].
  apply (proj2 (proj1 (proj2 (write_failure_raised_then_logged
                                Fixture.ascii_text Fixture.one_refused
                                (Fixture.processor 80 6) _ Hw))
                      [Fixture.doc "BAD"] 6)).
  by vm_compute.
Defined.

(** C3, as stated, fails: over a store that refuses the only page of the
    only file, the run records the failed write, and still returns
    normally and prints that the processing succeeded. *)
Lemma process_pdfs_masks_write_failure :
  ~ surfaces_write_failure
      (@PDFProcessor.process_pdfs Fixture.ascii_text Fixture.one_refused
         (Fixture.processor 80 6))
      (@Fixture.empty_world Fixture.one_refused [])
  /\ (@PDFProcessor.process_pdfs Fixture.ascii_text Fixture.one_refused
        (Fixture.processor 80 6) (@Fixture.empty_world Fixture.one_refused []))
     = (Ok tt,
        mkWorld Fixture.one_refused []
          0
          [LoaderLoad (lit "pdfs/a.pdf") true;
           SplitDocuments [Fixture.doc "BAD"] true;
           StoreAdd [Fixture.doc "BAD"] false]
          [(INFO, "=== start of PDF processing ===");
           (INFO, "found PDF files");
           (INFO, "processing file group");
           (DEBUG, "loaded");
           (INFO, "text splitting done");
           (INFO, "start inserting documents");
           (ERROR, "Failed to add documents");
           (ERROR, "inserting the documents failed");
           (ERROR, "processing the PDF group failed");
           (INFO, "=== processing done ===")]
          ["PDF processing completed successfully!"]).
Proof.
  split; [|by vm_compute].
  unfold surfaces_write_failure. intros Hmask.
  assert (is_raise
            (@PDFProcessor.process_pdfs Fixture.ascii_text Fixture.one_refused
               (Fixture.processor 80 6)
               (@Fixture.empty_world Fixture.one_refused [])).1 = true) as Hr.
  { apply Hmask. by vm_compute. }
  vm_compute in Hr. discriminate.
Qed.

(** C2, as the code has it.  With a positive group size, a run that finds
    files returns normally whatever happens inside the groups; the groups
    are the consecutive slices of the discovered files, so every file is in
    exactly one group; each group is processed once, in order, and its
    processing always returns (a failure in it, a failed store write
    included, is caught there and ends on an error record in the log);
    within a group the files are read in order
    up to and including the first one that cannot be loaded, and when no
    file fails to load, every discovered file is read exactly once. *)
Theorem process_pdfs_isolates_groups (T : Text) (E : Ingest)
    (self : PDFProcessor.t) (w : world) (pdf_files : list Py.str) :
  0 < PDFProcessor.file_group_num self ->
  (PDFProcessor.load_pdf_files self w).1 = Ok pdf_files ->
  (PDFProcessor.process_pdfs self w).1 = Ok tt
  /\ loads (w_calls (PDFProcessor.process_pdfs self w).2)
     = loads (w_calls w)
       ++ concat (attempted
                    <$> windows (PDFProcessor.file_group_num self) pdf_files)
  /\ concat (windows (PDFProcessor.file_group_num self) pdf_files) = pdf_files
  /\ (forall group w0,
        (PDFProcessor.process_pdfs_group self group w0).1 = Ok tt
        /\ loads (w_calls (PDFProcessor.process_pdfs_group self group w0).2)
           = loads (w_calls w0) ++ attempted group
        /\ (is_raise ((pdf_contents <~ PDFProcessor.load_group group [] ;;
                       split_and_insert self pdf_contents) w0).1 = true ->
            last (w_log (PDFProcessor.process_pdfs_group self group w0).2)
            = Some (ERROR, "processing the PDF group failed")))
  /\ (Forall (fun f => is_raise (loader_load f) = false) pdf_files ->
      loads (w_calls (PDFProcessor.process_pdfs self w).2)
      = loads (w_calls w) ++ pdf_files).
Proof.
  intros Hg Hfiles.
  destruct (process_pdfs_run self pdf_files w Hg Hfiles) as [Hr Hloads].
  split_and!; [done | done | by apply concat_windows | |].
  - intros group w0. split_and!.
    + apply process_pdfs_group_returns.
    + apply process_pdfs_group_loads.
    + apply process_pdfs_group_logs_failure.
  - intros Hok. rewrite Hloads. f_equal.
    rewrite <- (concat_windows pdf_files _ Hg) at 2. f_equal.
    apply list_eq. intros k. rewrite list_lookup_fmap.
    destruct (windows _ pdf_files !! k) as [group|] eqn:Hk; [|done].
    simpl. f_equal. apply attempted_all_ok.
    apply lookup_windows in Hk as ->. by apply Forall_take, Forall_drop.
Qed.

Lemma process_pdfs_isolates_groups_witness :
  0 < PDFProcessor.file_group_num (Fixture.processor 1 6)
  /\ (@PDFProcessor.load_pdf_files Fixture.ascii_text Fixture.one_unreadable
        (Fixture.processor 1 6) (@Fixture.empty_world Fixture.one_unreadable [])).1
     = Ok [lit "pdfs/a.pdf"; lit "pdfs/b.PDF"]
  /\ (@PDFProcessor.process_pdfs Fixture.ascii_text Fixture.one_unreadable
        (Fixture.processor 1 6) (@Fixture.empty_world Fixture.one_unreadable [])).1
     = Ok tt
  /\ loads (w_calls (@PDFProcessor.process_pdfs Fixture.ascii_text
                       Fixture.one_unreadable (Fixture.processor 1 6)
                       (@Fixture.empty_world Fixture.one_unreadable [])).2)
     = [lit "pdfs/a.pdf"; lit "pdfs/b.PDF"].
Proof.
  assert (0 < PDFProcessor.file_group_num (Fixture.processor 1 6)) as Hg by done.
  assert ((@PDFProcessor.load_pdf_files Fixture.ascii_text Fixture.one_unreadable
             (Fixture.processor 1 6)
             (@Fixture.empty_world Fixture.one_unreadable [])).1
          = Ok [lit "pdfs/a.pdf"; lit "pdfs/b.PDF"]) as Hfiles by (by vm_compute).
  destruct (process_pdfs_isolates_groups Fixture.ascii_text Fixture.one_unreadable
              (Fixture.processor 1 6) _ _ Hg Hfiles) as (Hr & Hloads & _).
  split_and!; [exact Hg | exact Hfiles | exact Hr |].
  rewrite Hloads. by vm_compute.
Defined.

(** C2, as stated, fails: with both files in one group and the first one
    unreadable, the run ends normally and the second file was never handed
    to the loader. *)
Lemma second_file_never_attempted :
  ~ @every_file_attempted_once Fixture.ascii_text Fixture.one_unreadable
      (Fixture.processor 2 6) (@Fixture.empty_world Fixture.one_unreadable [])
  /\ (@PDFProcessor.process_pdfs Fixture.ascii_text Fixture.one_unreadable
        (Fixture.processor 2 6) (@Fixture.empty_world Fixture.one_unreadable [])).1
     = Ok tt
  /\ loads (w_calls (@PDFProcessor.process_pdfs Fixture.ascii_text
                       Fixture.one_unreadable (Fixture.processor 2 6)
                       (@Fixture.empty_world Fixture.one_unreadable [])).2)
     = [lit "pdfs/a.pdf"].
Proof.
  split_and!; [|by vm_compute|by vm_compute].
  intros Hall.
  specialize (Hall [lit "pdfs/a.pdf"; lit "pdfs/b.PDF"]
                ltac:(by vm_compute) ltac:(by vm_compute)
                (lit "pdfs/b.PDF")).
  assert (lit "pdfs/b.PDF" ∈ [lit "pdfs/a.pdf"; lit "pdfs/b.PDF"]) as Hin.
  { apply elem_of_cons. right. apply elem_of_cons. by left. }
  specialize (Hall Hin). vm_compute in Hall. discriminate.
Qed.

(** ** Chunking *)

Section SplitterFacts.
Import SpecSplitter.
Variables (c o : nat) (seps : list Py.str).
Hypothesis Hvalid : (o < c)%nat.

Lemma last_cut_bounds sep (w : Py.str) bound k :
  last_cut o sep w bound = Some k -> (o < k <= bound)%nat.
Proof.
  induction bound as [|b IH]; simpl; [done|].
  destruct (o <? S b)%nat eqn:Hlt; simpl.
  - destruct (endswith _ sep).
    + intros [= <-]. apply Nat.ltb_lt in Hlt. lia.
    + intros Hk. apply IH in Hk. lia.
  - intros Hk. apply IH in Hk. lia.
Qed.

Lemma choose_cut_bounds (w : Py.str) :
  (o < length w)%nat -> (o < choose_cut o seps w <= length w)%nat.
Proof.
  intros Hw. induction seps as [|sep rest IH]; simpl; [lia|].
  destruct (last_cut o sep w (length w)) as [k|] eqn:Hk; [|done].
  by apply last_cut_bounds in Hk.
Qed.

(** The cut of a remainder longer than the chunk size. *)
Lemma cut_bounds (rest : Py.str) :
  (c < length rest)%nat ->
  (o < choose_cut o seps (take c rest) <= c)%nat.
Proof.
  intros Hlong.
  pose proof (choose_cut_bounds (take c rest)) as Hb.
  rewrite length_take in Hb. lia.
Qed.

Lemma split_from_short fuel pos (rest : Py.str) :
  (0 < length rest <= c)%nat -> (length rest <= fuel)%nat ->
  split_from c o seps fuel pos rest = [(pos, rest)].
Proof.
  intros [Hpos Hshort] Hfuel.
  destruct fuel as [|f]; [lia|]. destruct rest as [|x rest]; [simpl in *; lia|].
  unfold split_from. by rewrite (proj2 (Nat.leb_le _ _) Hshort).
Qed.

Lemma split_from_long fuel pos (rest : Py.str) :
  (c < length rest)%nat ->
  split_from c o seps (S fuel) pos rest
  = (pos, take (choose_cut o seps (take c rest)) rest)
      :: split_from c o seps fuel
           (pos + (choose_cut o seps (take c rest) - o))
           (drop (choose_cut o seps (take c rest) - o) rest).
Proof.
  intros Hlong. destruct rest as [|x rest]; [simpl in *; lia|].
  unfold split_from at 1. fold (split_from c o seps).
  by rewrite (proj2 (Nat.leb_gt _ _) Hlong).
Qed.

(** The first chunk of a non-empty remainder starts where the remainder
    starts and begins with its first [o] characters. *)
Lemma split_from_head fuel pos (rest : Py.str) :
  (0 < length rest <= fuel)%nat ->
  exists t tl, split_from c o seps fuel pos rest = (pos, t) :: tl
               /\ take o t = take o rest.
Proof.
  intros [Hpos Hfuel].
  destruct (decide (length rest <= c)%nat) as [Hshort | Hlong].
  - exists rest, []. by rewrite split_from_short by lia.
  - destruct fuel as [|f]; [lia|]. rewrite split_from_long by lia.
    eexists _, _. split; [done|].
    pose proof (cut_bounds rest ltac:(lia)).
    rewrite take_take. f_equal. lia.
Qed.

Lemma split_from_chained fuel pos (rest : Py.str) :
  (length rest <= fuel)%nat -> chained o (split_from c o seps fuel pos rest).
Proof.
  revert pos rest. induction fuel as [|f IH]; intros pos rest Hfuel; [done|].
  destruct (decide (length rest <= c)%nat) as [Hshort | Hlong].
  - destruct rest as [|x rest]; [done|].
    by rewrite split_from_short by (simpl in *; lia).
  - rewrite split_from_long by lia.
    pose proof (cut_bounds rest ltac:(lia)) as Hk.
    set (k := choose_cut o seps (take c rest)) in *.
    assert (length (drop (k - o) rest) <= f)%nat as Hf
      by (rewrite length_drop; lia).
    specialize (IH (pos + (k - o))%nat _ Hf).
    destruct (split_from_head f (pos + (k - o)) (drop (k - o) rest))
      as (t & tl & Heq & Hhead); [rewrite length_drop; lia|].
    rewrite Heq in IH |- *. simpl. split_and!; [lia | | done].
    rewrite Hhead, length_take, Nat.min_l by lia.
    rewrite take_drop_commute. do 2 f_equal. lia.
Qed.

Lemma chained_lookup (cs : list (nat * list N)) i a b :
  chained o cs -> cs !! i = Some a -> cs !! S i = Some b ->
  (a.1 <= b.1)%nat /\ drop (length (a.2) - o) (a.2) = take o (b.2).
Proof.
  revert i. induction cs as [|x cs IH]; intros i Hch Ha Hb; [done|].
  destruct cs as [|y cs]; [done|]. destruct Hch as (Hle & Hov & Hch).
  destruct i as [|i]; simpl in *.
  - by injection Ha as <-; injection Hb as <-.
  - by apply (IH i).
Qed.

Lemma split_page_chained (text : Py.str) : chained o (split_page c o seps text).
Proof. by apply split_from_chained. Qed.

Lemma split_page_short (text : Py.str) :
  (0 < length text <= c)%nat -> split_page c o seps text = [(0%nat, text)].
Proof. intros Hshort. by apply split_from_short. Qed.

Lemma split_page_empty : split_page c o seps [] = [].
Proof. done. Qed.

Lemma start_offset_chunk page (ch : nat * list N) :
  start_offset (chunk_of page ch) = Some (MInt (Z.of_nat (ch.1))).
Proof. unfold start_offset, chunk_of. simpl. apply lookup_insert_eq. Qed.

End SplitterFacts.

Section SplitTextFacts.
Import PDFProcessor.
Context {E : Ingest}.
Variable self : PDFProcessor.t.
Hypothesis Hsplitter : @new_text_splitter E = SpecSplitter.new_text_splitter.
Hypothesis Hvalid : 0 <= overlap self < chunksize self.

(** With the splitter of the specification and valid parameters,
    [split_text] returns the chunks of the pages, page after page. *)
Lemma split_text_specified pages (w : world) :
  (split_text self pages w).1
  = Ok (SpecSplitter.split_documents (Z.to_nat (chunksize self))
          (Z.to_nat (overlap self)) separators pages).
Proof.
  unfold split_text. rewrite Hsplitter. unfold SpecSplitter.new_text_splitter.
  destruct (Z.leb_spec 0 (overlap self)) as [_|]; [|lia].
  destruct (Z.ltb_spec (overlap self) (chunksize self)) as [_|]; [|lia].
  done.
Qed.

End SplitTextFacts.

(** C4.  With the splitter of the specification and [0 <= overlap <
    chunksize], [split_text] returns the chunks of the pages, page after
    page; among the chunks of one page, every chunk carries a
    [start_offset] that is at least 0, the offsets do not decrease in
    production order, and the last [overlap] characters of a chunk are the
    first [overlap] characters of the next one. *)
Theorem chunk_offsets_and_overlap (E : Ingest) (self : PDFProcessor.t)
    (pages : list Document) (w : world) :
  @new_text_splitter E = SpecSplitter.new_text_splitter ->
  0 <= PDFProcessor.overlap self < PDFProcessor.chunksize self ->
  (PDFProcessor.split_text self pages w).1
  = Ok (concat (SpecSplitter.split_page_documents
                  (Z.to_nat (PDFProcessor.chunksize self))
                  (Z.to_nat (PDFProcessor.overlap self))
                  PDFProcessor.separators <$> pages))
  /\ forall chunks,
       chunks ∈ (SpecSplitter.split_page_documents
                   (Z.to_nat (PDFProcessor.chunksize self))
                   (Z.to_nat (PDFProcessor.overlap self))
                   PDFProcessor.separators <$> pages) ->
       (forall d, d ∈ chunks ->
                  exists s, SpecSplitter.start_offset d = Some (MInt s) /\ 0 <= s)
       /\ (forall i d1 d2,
             chunks !! i = Some d1 -> chunks !! S i = Some d2 ->
             exists s1 s2,
               SpecSplitter.start_offset d1 = Some (MInt s1)
               /\ SpecSplitter.start_offset d2 = Some (MInt s2)
               /\ s1 <= s2
               /\ drop (length (page_content d1)
                        - Z.to_nat (PDFProcessor.overlap self))
                       (page_content d1)
                  = take (Z.to_nat (PDFProcessor.overlap self))
                         (page_content d2)).
Proof.
  intros Hsplitter Hvalid. split; [by apply split_text_specified|].
  intros chunks Hin. apply list_elem_of_fmap in Hin as (page & -> & _).
  unfold SpecSplitter.split_page_documents. split.
  - intros d Hd. apply list_elem_of_fmap in Hd as (ch & -> & _).
    eexists. split; [apply start_offset_chunk | lia].
  - intros i d1 d2. rewrite !list_lookup_fmap. intros H1 H2.
    destruct (SpecSplitter.split_page _ _ _ _ !! i) as [a|] eqn:Ha; [|done].
    destruct (SpecSplitter.split_page _ _ _ _ !! S i) as [b|] eqn:Hb; [|done].
    injection H1 as <-. injection H2 as <-.
    assert (Z.to_nat (PDFProcessor.overlap self)
            < Z.to_nat (PDFProcessor.chunksize self))%nat as Hlt by lia.
    destruct (chained_lookup _ _ i a b
                (split_page_chained _ _ PDFProcessor.separators Hlt
                   (page_content page)) Ha Hb) as [Hle Hov].
    exists (Z.of_nat (a.1)), (Z.of_nat (b.1)).
    rewrite !start_offset_chunk. split_and!; [done | done | lia | done].
Qed.

Lemma chunk_offsets_and_overlap_witness :
  @new_text_splitter Fixture.chunking = SpecSplitter.new_text_splitter
  /\ 0 <= PDFProcessor.overlap Fixture.small_chunks
       < PDFProcessor.chunksize Fixture.small_chunks
  /\ (@PDFProcessor.split_text Fixture.chunking Fixture.small_chunks
        [Fixture.sample_page] (@Fixture.empty_world Fixture.chunking [])).1
     = Ok (concat (SpecSplitter.split_page_documents 10 3 PDFProcessor.separators
                     <$> [Fixture.sample_page])).
Proof.
  assert (0 <= PDFProcessor.overlap Fixture.small_chunks
          < PDFProcessor.chunksize Fixture.small_chunks) as Hvalid by done.
  split; [done|]. split; [exact Hvalid|].
  exact (proj1 (chunk_offsets_and_overlap Fixture.chunking Fixture.small_chunks
                  [Fixture.sample_page] (@Fixture.empty_world Fixture.chunking [])
                  eq_refl Hvalid)).
Defined.

(** C5.  With the splitter of the specification and [0 <= overlap <
    chunksize], a non-empty page of at most [chunksize] characters gives
    exactly one chunk, whose text is the page text (at offset 0, with the
    page's metadata), and an empty page gives no chunk. *)
Theorem short_page_single_chunk (E : Ingest) (self : PDFProcessor.t)
    (page : Document) (w : world) :
  @new_text_splitter E = SpecSplitter.new_text_splitter ->
  0 <= PDFProcessor.overlap self < PDFProcessor.chunksize self ->
  ((0 < length (page_content page) <= Z.to_nat (PDFProcessor.chunksize self))%nat ->
   (PDFProcessor.split_text self [page] w).1
   = Ok [mkDocument (page_content page)
                    (<[lit "start_offset" := MInt 0]> (metadata page))])
  /\ (page_content page = [] ->
      (PDFProcessor.split_text self [page] w).1 = Ok []).
Proof.
  intros Hsplitter Hvalid.
  rewrite split_text_specified by done.
  unfold SpecSplitter.split_documents, SpecSplitter.split_page_documents.
  split.
  - intros Hshort. simpl. rewrite split_page_short by (done || lia). reflexivity.
  - intros Hempty. simpl. by rewrite Hempty.
Qed.

Lemma short_page_single_chunk_witness :
  @new_text_splitter Fixture.chunking = SpecSplitter.new_text_splitter
  /\ 0 <= PDFProcessor.overlap (Fixture.processor 80 6)
       < PDFProcessor.chunksize (Fixture.processor 80 6)
  /\ (0 < length (page_content (Fixture.doc "hello")) <= Z.to_nat 500)%nat
  /\ (@PDFProcessor.split_text Fixture.chunking (Fixture.processor 80 6)
        [Fixture.doc "hello"] (@Fixture.empty_world Fixture.chunking [])).1
     = Ok [mkDocument (lit "hello") (<[lit "start_offset" := MInt 0]> ∅)].
Proof.
  assert (0 <= PDFProcessor.overlap (Fixture.processor 80 6)
          < PDFProcessor.chunksize (Fixture.processor 80 6)) as Hvalid by done.
  assert (0 < length (page_content (Fixture.doc "hello")) <= Z.to_nat 500)%nat
    as Hshort by (vm_compute; lia).
  split; [done|]. split; [exact Hvalid|]. split; [exact Hshort|].
  exact (proj1 (short_page_single_chunk Fixture.chunking (Fixture.processor 80 6)
                  (Fixture.doc "hello") (@Fixture.empty_world Fixture.chunking [])
                  eq_refl Hvalid) Hshort).
Defined.

(** * More of the code *)

(** ** The vector search *)

Section MapFacts.
Context {S X Y : Type}.

Lemma map_m_pure (g : X -> M S Y) (f : X -> Y) (xs : list X) (s : S) :
  (forall x, x ∈ xs -> g x s = (Ok (f x), s)) ->
  map_m g xs s = (Ok (f <$> xs), s).
Proof.
  induction xs as [|x xs IH]; intros Hg; [done|].
  simpl. unfold bind at 1. rewrite (Hg x) by (apply elem_of_cons; by left).
  unfold bind at 1. rewrite IH; [done|].
  intros y Hy. apply Hg. apply elem_of_cons; by right.
Qed.

Lemma map_m_fails (g : X -> M S Y) (f : X -> Y) (pre post : list X) (x : X)
    (s : S) (e : exn) :
  (forall y, y ∈ pre -> g y s = (Ok (f y), s)) ->
  g x s = (Raise e, s) ->
  map_m g (pre ++ x :: post) s = (Raise e, s).
Proof.
  induction pre as [|y pre IH]; intros Hpre Hx; simpl.
  - unfold bind at 1. by rewrite Hx.
  - unfold bind at 1. rewrite (Hpre y) by (apply elem_of_cons; by left).
    unfold bind at 1. rewrite IH; [done | | done].
    intros z Hz. apply Hpre. apply elem_of_cons; by right.
Qed.

End MapFacts.

Section SearchFacts.
Import VectorRetriever.
Context {T : Text} {R : Retrieval}.
Variable self : VectorRetriever.t.

(** One step of the loop that builds the documents. *)
Lemma build_document_at (res : QueryResult) docs0 mds0 (i : nat) text md
    (cs : list rcall) :
  documents res !! 0%nat = Some docs0 -> metadatas res !! 0%nat = Some mds0 ->
  docs0 !! i = Some text -> mds0 !! i = Some md ->
  ((documents0 <~ lift (getitem (documents res) 0) ;;
    text <~ lift (getitem documents0 i) ;;
    metadatas0 <~ lift (getitem (metadatas res) 0) ;;
    md <~ lift (getitem metadatas0 i) ;;
    ret (mkDocument text (or_empty md))) : M (list rcall) Document) cs
  = (Ok (mkDocument text (or_empty md)), cs).
Proof.
  intros Hd Hm Ht Hmd. unfold bind, lift, getitem, ret.
  by rewrite Hd, Ht, Hm, Hmd.
Qed.

(** X1.  When the collection answers with at least as many texts and
    metadata entries as identifiers, [similarity_search] returns one
    document per identifier, in the collection's order, each text with its
    metadata ([None] becoming the empty dict); fewer identifiers than
    [top_k] is not an error. *)
Theorem similarity_search_in_order query filter_conditions cs e res
    ids0 docs0 mds0 :
  embed_query query = Ok e ->
  collection_query e (top_k self) filter_conditions = Ok res ->
  ids res !! 0%nat = Some ids0 ->
  documents res !! 0%nat = Some docs0 ->
  metadatas res !! 0%nat = Some mds0 ->
  (length ids0 <= length docs0)%nat ->
  (length ids0 <= length mds0)%nat ->
  (similarity_search self query filter_conditions cs).1
  = Ok (take (length ids0)
             (zip_with (fun text md => mkDocument text (or_empty md))
                       docs0 mds0)).
Proof.
  intros He Hres Hids Hdocs Hmds Hld Hlm.
  unfold similarity_search, bind at 1, lift at 1. rewrite He.
  unfold bind at 1, call_query. rewrite Hres.
  unfold bind at 1, lift at 1, getitem at 1. rewrite Hids.
  rewrite (map_m_pure _
             (fun i => mkDocument (default [] (docs0 !! i))
                                  (or_empty (default None (mds0 !! i))))).
  - simpl. f_equal. apply list_eq. intros i.
    rewrite list_lookup_fmap.
    destruct (decide (i < length ids0)%nat) as [Hi | Hi].
    + rewrite lookup_take_lt, lookup_seq_lt by done. simpl.
      rewrite lookup_zip_with.
      destruct (lookup_lt_is_Some_2 docs0 i ltac:(lia)) as [t Ht].
      destruct (lookup_lt_is_Some_2 mds0 i ltac:(lia)) as [m Hm].
      by rewrite Ht, Hm.
    + rewrite lookup_take_ge by lia.
      by rewrite lookup_ge_None_2 by (rewrite length_seq; lia).
  - intros i Hi. apply elem_of_seq in Hi as [_ Hi]. simpl in Hi.
    destruct (lookup_lt_is_Some_2 docs0 i ltac:(lia)) as [t Ht].
    destruct (lookup_lt_is_Some_2 mds0 i ltac:(lia)) as [m Hm].
    rewrite Ht, Hm. simpl.
    exact (build_document_at res docs0 mds0 i t m _ Hdocs Hmds Ht Hm).
Qed.

(** X2.  When the collection answers with fewer texts or fewer metadata
    entries than identifiers, [similarity_search] raises [IndexError]. *)
Theorem similarity_search_misaligned query filter_conditions cs e res
    ids0 docs0 mds0 :
  embed_query query = Ok e ->
  collection_query e (top_k self) filter_conditions = Ok res ->
  ids res !! 0%nat = Some ids0 ->
  documents res !! 0%nat = Some docs0 ->
  metadatas res !! 0%nat = Some mds0 ->
  (length docs0 < length ids0 \/ length mds0 < length ids0)%nat ->
  (similarity_search self query filter_conditions cs).1
  = Raise (Exn IndexError "list index out of range").
Proof.
  intros He Hres Hids Hdocs Hmds Hshort.
  unfold similarity_search, bind at 1, lift at 1. rewrite He.
  unfold bind at 1, call_query. rewrite Hres.
  unfold bind at 1, lift at 1, getitem at 1. rewrite Hids.
  set (i0 := (length docs0 `min` length mds0)%nat).
  assert (i0 < length ids0)%nat as Hi0 by lia.
  replace (length ids0) with (i0 + S (length ids0 - S i0))%nat by lia.
  rewrite seq_app. simpl seq.
  rewrite (map_m_fails _
             (fun i => mkDocument (default [] (docs0 !! i))
                                  (or_empty (default None (mds0 !! i))))
             _ _ _ _ (Exn IndexError "list index out of range")); [done| |].
  - intros i Hi. apply elem_of_seq in Hi as [_ Hi]. simpl in Hi.
    destruct (lookup_lt_is_Some_2 docs0 i ltac:(lia)) as [t Ht].
    destruct (lookup_lt_is_Some_2 mds0 i ltac:(lia)) as [m Hm].
    rewrite Ht, Hm. simpl.
    exact (build_document_at res docs0 mds0 i t m _ Hdocs Hmds Ht Hm).
  - unfold bind, lift, getitem. rewrite Hdocs. simpl.
    destruct (docs0 !! i0) as [t|] eqn:Ht; [|done].
    rewrite Hmds.
    assert (mds0 !! i0 = None) as ->; [|done].
    apply lookup_ge_None_2. apply lookup_lt_Some in Ht. lia.
Qed.

Lemma list_filter_sublist {A} (f : A -> bool) (l : list A) :
  List.filter f l `sublist_of` l.
Proof.
  induction l as [|x l IH]; simpl; [done|].
  destruct (f x); [by apply sublist_skip | by apply sublist_cons].
Qed.

Lemma list_filter_all {A} (f : A -> bool) (l : list A) :
  Forall (fun x => f x = true) (List.filter f l).
Proof.
  induction l as [|x l IH]; simpl; [done|].
  destruct (f x) eqn:Hx; [by constructor | done].
Qed.

Lemma slice_sublist {A} (l : list A) (lo hi : Z) : slice l lo hi `sublist_of` l.
Proof.
  unfold slice. etrans; [apply sublist_take | apply sublist_drop].
Qed.

(** What a hybrid search can return. *)
Lemma hybrid_search_results query keyword filter_conditions
    cs r :
  (hybrid_search self query keyword filter_conditions cs).1 = Ok r ->
  exists vector_results,
    (similarity_search self query filter_conditions cs).1 = Ok vector_results
    /\ r `sublist_of` vector_results
    /\ forall c kw,
         keyword = Some (c :: kw) ->
         Forall (fun doc => occurs_in (lower (c :: kw))
                                      (lower (page_content doc))) r
         /\ (0 <= top_k self -> (length r <= Z.to_nat (top_k self))%nat).
Proof.
  destruct keyword as [[|c kw]|].
  - unfold hybrid_search. rewrite bind_ret_r. intros Hr.
    exists r. split_and!; [done | done | by intros ?? [=]].
  - rewrite hybrid_search_filters.
    destruct (similarity_search self query filter_conditions cs)
      as [[vr|err] cs']; simpl; [|done].
    intros [= <-]. exists vr. split_and!; [done | |].
    + etrans; [apply slice_sublist | apply list_filter_sublist].
    + intros c' kw' [= <- <-]. split.
      * eapply Forall_impl.
        -- unfold slice. apply Forall_take, Forall_drop, list_filter_all.
        -- intros doc Hdoc. by apply keyword_match_spec.
      * intros Hk. rewrite slice_prefix, length_take by done. lia.
  - unfold hybrid_search. rewrite bind_ret_r. intros Hr.
    exists r. split_and!; [done | done | by intros ?? [=]].
Qed.

(** X3.  Whatever the keyword, a hybrid search that returns gives a
    sublist of what the vector search returns for the same query and filter
    (a match that the vector search did not fetch cannot appear); with a
    non-empty keyword every returned text contains the lowered keyword, and
    there are at most [top_k] of them when [top_k >= 0]. *)
Theorem hybrid_search_within_vector_results query keyword filter_conditions
    cs r :
  (hybrid_search self query keyword filter_conditions cs).1 = Ok r ->
  exists vector_results,
    (similarity_search self query filter_conditions cs).1 = Ok vector_results
    /\ r `sublist_of` vector_results
    /\ forall c kw,
         keyword = Some (c :: kw) ->
         Forall (fun doc => occurs_in (lower (c :: kw))
                                      (lower (page_content doc))) r
         /\ (0 <= top_k self -> (length r <= Z.to_nat (top_k self))%nat).
Proof. apply hybrid_search_results. Qed.

End SearchFacts.

(** ** Edges of the ingestion path *)

Section IngestEdges.
Import ChromaManager PDFProcessor.
Context {T : Text} {E : Ingest}.
Variable self : PDFProcessor.t.

(** X4.  With a batch size that is not positive the batched insertion
    hands nothing to the store, whatever the list.  For a non-empty list,
    size 0 raises [ZeroDivisionError] (from the batch count, before the
    function's own handler) and a negative size returns normally although
    no document was handed to the store; for the empty list the function
    returns normally whatever the size. *)
Theorem insert_docs_nonpositive_batch (docs : list Document) (b : Z) (w : world) :
  b <= 0 ->
  w_calls (insert_docs_chromadb docs b w).2 = w_calls w
  /\ w_store (insert_docs_chromadb docs b w).2 = w_store w
  /\ (docs <> [] -> b = 0 ->
      (insert_docs_chromadb docs b w).1
      = Raise (Exn ZeroDivisionError "integer division by zero"))
  /\ (docs <> [] -> b < 0 -> (insert_docs_chromadb docs b w).1 = Ok tt)
  /\ (docs = [] -> (insert_docs_chromadb docs b w).1 = Ok tt).
Proof.
  intros Hb. destruct docs as [|d docs]; [by split_and!|].
  unfold insert_docs_chromadb, bind at 1, log at 1, modify.
  unfold bind at 1, lift at 1, floordiv.
  destruct (Z.eqb_spec b 0) as [-> | Hnz]; [by split_and!; [| | |lia|]|].
  unfold try_except, bind at 1, lift at 1, range.
  destruct (Z.eqb_spec b 0) as [|_]; [done|].
  destruct (Z.ltb_spec 0 b) as [|_]; [lia|].
  replace (Z.to_nat (0 - Z.of_nat (length (d :: docs)))) with O by lia.
  by split_and!; [| |lia| |].
Qed.

(** X5.  With a group size that is not positive a run that found files
    reads none of them and writes nothing: with 0 it raises [RuntimeError],
    and with a negative size it returns normally and prints that the
    processing succeeded. *)
Theorem process_pdfs_nonpositive_group (w : world) pdf_files :
  (load_pdf_files self w).1 = Ok pdf_files ->
  file_group_num self <= 0 ->
  w_calls (process_pdfs self w).2 = w_calls w
  /\ w_store (process_pdfs self w).2 = w_store w
  /\ (file_group_num self = 0 ->
      (process_pdfs self w).1 = Raise (Exn RuntimeError "PDF processing failed"))
  /\ (file_group_num self < 0 ->
      (process_pdfs self w).1 = Ok tt
      /\ w_stdout (process_pdfs self w).2
         = w_stdout w ++ ["PDF processing completed successfully!"]).
Proof.
  intros Hfiles Hg. unfold process_pdfs, bind at 1, log at 1, modify.
  unfold try_except, bind at 1. unfold load_pdf_files in *.
  destruct (map _ _) as [|f files] eqn:Hmap; [done|].
  simpl in Hfiles. injection Hfiles as <-.
  unfold bind at 1, log at 1, modify, ret.
  unfold bind at 1, lift at 1, range.
  destruct (Z.eqb_spec (file_group_num self) 0) as [Hz | Hnz].
  { by split_and!; [| | |lia]. }
  destruct (Z.ltb_spec 0 (file_group_num self)) as [|_]; [lia|].
  replace (Z.to_nat (0 - Z.of_nat (length (f :: files)))) with O by lia.
  by split_and!; [| |lia|].
Qed.

Lemma load_pdf_content_exact p (w : world) :
  load_pdf_content p w
  = (match loader_load p with
     | Ok pages => Ok pages
     | Raise _ => Raise (Exn RuntimeError "cannot load the PDF file")
     end,
     mkWorld _ (w_store w) (w_uuid w) (w_calls w ++ [load_call p])
             (w_log w ++ [load_log p]) (w_stdout w)).
Proof.
  unfold load_pdf_content, try_except, bind, call_loader, load_call, load_log.
  by destruct (loader_load p).
Qed.

(** The loading loop, exactly. *)
Lemma load_group_exact group acc (w : world) :
  load_group group acc w
  = (if forallb (fun p => negb (is_raise (loader_load p))) group
     then Ok (acc ++ loaded_pages group)
     else Raise (Exn RuntimeError "cannot load the PDF file"),
     mkWorld _ (w_store w) (w_uuid w)
       (w_calls w ++ (load_call <$> attempted group))
       (w_log w ++ (load_log <$> attempted group))
       (w_stdout w)).
Proof.
  revert acc w. induction group as [|p group IH]; intros acc w.
  - destruct w. simpl. unfold loaded_pages. simpl. by rewrite !app_nil_r.
  - simpl load_group. unfold bind at 1. rewrite load_pdf_content_exact.
    simpl attempted. unfold loaded_pages. simpl forallb. simpl fmap.
    destruct (loader_load p) as [docs|e] eqn:Hp; simpl.
    + rewrite IH. simpl.
      destruct (forallb _ group); simpl; by rewrite <- ?app_assoc.
    + done.
Qed.

(** X6.  When one file of a group cannot be loaded, the group processor
    returns normally after reading the files up to that one: the pages
    already loaded are dropped, the splitter and the store are not called,
    and the log ends on the error of the group. *)
Theorem group_load_failure_writes_nothing group (w : world) :
  Exists (fun p => is_raise (loader_load p) = true) group ->
  process_pdfs_group self group w
  = (Ok tt,
     mkWorld _ (w_store w) (w_uuid w)
       (w_calls w ++ (load_call <$> attempted group))
       ((w_log w ++ (load_log <$> attempted group))
          ++ [(ERROR, "processing the PDF group failed")])
       (w_stdout w)).
Proof.
  intros Hfail.
  assert (forallb (fun p => negb (is_raise (loader_load p))) group = false)
    as Hall.
  { apply not_true_is_false. intros Hall. rewrite forallb_forall in Hall.
    apply Exists_exists in Hfail as (p & Hp & Hr).
    apply list_elem_of_In, Hall in Hp. by rewrite Hr in Hp. }
  rewrite process_pdfs_group_unfold. unfold try_except, bind.
  by rewrite load_group_exact, Hall.
Qed.

(** X7.  When every file of a group loads and they have at least one
    page together, the splitter accepts the parameters and returns at least
    one chunk for these pages, the batch size is positive and the store
    accepts every non-empty batch, the group processor returns normally
    after reading the files in order, splitting all their pages in one
    call, and writing the chunks in consecutive batches of [batch_num], in
    that order, nothing else being called. *)
Theorem process_pdfs_group_success group (w : world) split chunks :
  Forall (fun p => is_raise (loader_load p) = false) group ->
  loaded_pages group <> [] ->
  new_text_splitter (chunksize self) (overlap self) separators = Ok split ->
  split (loaded_pages group) = Ok chunks ->
  chunks <> [] ->
  0 < batch_num self ->
  (forall s batch, batch <> [] ->
                   is_raise (store_add_documents s batch).1 = false) ->
  (process_pdfs_group self group w).1 = Ok tt
  /\ w_calls (process_pdfs_group self group w).2
     = w_calls w
       ++ (load_call <$> group)
       ++ [SplitDocuments (loaded_pages group) true]
       ++ ((fun batch => StoreAdd batch true)
             <$> windows (batch_num self) chunks).
Proof.
  intros Hok Hpages Hnew Hsplit Hchunks Hb Hstore.
  assert (forallb (fun p => negb (is_raise (loader_load p))) group = true)
    as Hall.
  { apply forallb_forall. intros p Hp. apply list_elem_of_In in Hp.
    rewrite Forall_forall in Hok. by rewrite (Hok p Hp). }
  set (w2 := mkWorld _ (w_store w) (w_uuid w)
               ((w_calls w ++ (load_call <$> group))
                  ++ [SplitDocuments (loaded_pages group) true])
               ((w_log w ++ (load_log <$> group))
                  ++ [(INFO, "text splitting done")])
               (w_stdout w)).
  assert (process_pdfs_group self group w
          = match insert_docs_chromadb chunks (batch_num self) w2 with
            | (Ok a, s') => (Ok a, s')
            | (Raise e, s') => log ERROR "processing the PDF group failed" s'
            end) as ->.
  { rewrite process_pdfs_group_unfold. unfold try_except, bind at 1.
    rewrite load_group_exact, Hall, (attempted_all_ok group Hok). simpl.
    unfold split_and_insert.
    destruct (loaded_pages group) as [|d pages] eqn:Hp; [done|].
    unfold bind at 1, split_text, bind at 1, lift at 1. rewrite Hnew.
    unfold try_except, bind at 1, call_split. rewrite Hsplit. simpl.
    by destruct chunks. }
  destruct (insert_docs_accepted chunks (batch_num self) w2 Hchunks Hb Hstore)
    as [Hr Hcalls].
  destruct (insert_docs_chromadb chunks (batch_num self) w2) as [[[]|e] w3];
    simpl in *; [|done].
  split; [done|]. by rewrite Hcalls, <- !app_assoc.
Qed.

End IngestEdges.

Section AddFacts.
Import ChromaManager.
Context {E : Ingest}.

Lemma prepare_dicts_missing
    (l : list (option Py.str * option (gmap (list N) mdval))) (w : world) :
  Exists (fun d => d.1 = None) l ->
  _prepare_documents (Dicts l) w = (Raise (Exn KeyError "page_content"), w).
Proof.
  intros Hmiss. unfold _prepare_documents.
  assert (is_empty (Dicts l) = false) as ->.
  { destruct l; [by apply Exists_nil in Hmiss | done]. }
  induction Hmiss as [[text md] l Hd | [text md] l Hl IH]; simpl in *.
  - by subst text.
  - destruct text as [text|]; [|done].
    unfold bind at 1, ret at 1. cbv beta iota. unfold bind at 1.
    by rewrite IH.
Qed.

(** X8.  On a list of unsupported objects, or of dicts one of which has no
    ["page_content"], [add_documents] raises [RuntimeError] (the
    [ValueError] or [KeyError] of the conversion is wrapped), and the store
    is neither called nor changed. *)
Theorem add_documents_bad_input docs (w : world) :
  (exists n, docs = Others (S n))
  \/ (exists l, docs = Dicts l /\ Exists (fun d => d.1 = None) l) ->
  add_documents docs w
  = (Raise (Exn RuntimeError "Document addition failed"),
     mkWorld _ (w_store w) (w_uuid w) (w_calls w)
             (w_log w ++ [(ERROR, "Failed to add documents")]) (w_stdout w)).
Proof.
  intros [[n ->] | (l & -> & Hmiss)].
  - done.
  - unfold add_documents, try_except.
    assert (is_empty (Dicts l) = false) as ->.
    { destruct l; [by apply Exists_nil in Hmiss | done]. }
    unfold bind at 1. by rewrite prepare_dicts_missing.
Qed.

Lemma prepare_strings (texts : list Py.str) (w : world) :
  map_m (fun text =>
           id <~ call_uuid4 ;;
           ret (mkDocument text
                  (<[lit "source" := MStr (lit "user_input")]>
                     (<[lit "id" := MStr id]> ∅)))) texts w
  = (Ok (user_input_documents (w_uuid w) texts),
     mkWorld _ (w_store w) (w_uuid w + length texts) (w_calls w) (w_log w)
             (w_stdout w)).
Proof.
  revert w. induction texts as [|text texts IH]; intros w.
  - destruct w. simpl. by rewrite Nat.add_0_r.
  - simpl map_m. unfold bind at 1. unfold bind at 1, call_uuid4, ret at 1.
    cbv beta iota. unfold bind at 1. rewrite IH. unfold ret. simpl.
    unfold user_input_documents, user_input_document. simpl.
    rewrite Nat.add_0_r. f_equal.
    + do 2 f_equal. apply imap_ext. intros i x _. simpl.
      by replace (S (w_uuid w + i)) with (w_uuid w + S i)%nat by lia.
    + f_equal. lia.
Qed.

(** X9.  Adding a non-empty list of plain texts hands the store one batch
    with one document per text, in order, each with source ["user_input"]
    and a fresh identifier, and draws as many identifiers as there are
    texts; the identifiers of the store are returned, or [RuntimeError]
    when the store refuses. *)
Theorem add_documents_strings (texts : list Py.str) (w : world) :
  texts <> [] ->
  add_documents (Strings texts) w
  = (match (store_add_documents (w_store w)
              (user_input_documents (w_uuid w) texts)).1 with
     | Ok doc_ids => Ok doc_ids
     | Raise _ => Raise (Exn RuntimeError "Document addition failed")
     end,
     mkWorld _
       (store_add_documents (w_store w)
          (user_input_documents (w_uuid w) texts)).2
       (w_uuid w + length texts)
       (w_calls w
          ++ [StoreAdd (user_input_documents (w_uuid w) texts)
                (negb (is_raise
                         (store_add_documents (w_store w)
                            (user_input_documents (w_uuid w) texts)).1))])
       (w_log w
          ++ [match (store_add_documents (w_store w)
                       (user_input_documents (w_uuid w) texts)).1 with
              | Ok _ => (INFO, "Added documents to collection")
              | Raise _ => (ERROR, "Failed to add documents")
              end])
       (w_stdout w))
  /\ page_content <$> user_input_documents (w_uuid w) texts = texts.
Proof.
  intros Hne. split.
  - assert (is_empty (Strings texts) = false) as Hempty by (by destruct texts).
    assert (_prepare_documents (Strings texts) w
            = (Ok (user_input_documents (w_uuid w) texts),
               mkWorld _ (w_store w) (w_uuid w + length texts) (w_calls w)
                       (w_log w) (w_stdout w))) as Hprep.
    { rewrite <- prepare_strings. unfold _prepare_documents. by rewrite Hempty. }
    unfold add_documents. rewrite Hempty.
    unfold try_except, bind at 1. rewrite Hprep.
    unfold bind at 1, call_store_add. simpl w_store.
    by destruct (store_add_documents (w_store w) _) as [[ids|e] s'].
  - unfold user_input_documents. apply list_eq. intros i.
    rewrite list_lookup_fmap, list_lookup_imap. by destruct (texts !! i).
Qed.

End AddFacts.

(** ** Lookup after insertion *)

Section RoundTrip.
Import VectorRetriever Collection.

(** X10.  After an upsert, [get_by_id] on the same identifier returns the
    text and metadata upserted last ([None] as the empty dict), and the
    lookups of the other identifiers are as before. *)
Theorem get_by_id_after_upsert
    (c : gmap (list N) (list N * option (gmap (list N) mdval)))
    (nearest : Z -> option (gmap (list N) mdval) -> QueryResult)
    (id text : list N) (md : option (gmap (list N) mdval)) :
  @get_by_id (backend true (upsert id text md c) nearest) id []
  = (Ok (Some (mkDocument text (or_empty md))), [CollectionGet [id]])
  /\ forall id' : list N,
       id' <> id ->
       (@get_by_id (backend true (upsert id text md c) nearest) id' []).1
       = (@get_by_id (backend true c nearest) id' []).1.
Proof.
  split.
  - rewrite get_by_id_up. unfold upsert. by rewrite lookup_insert_eq.
  - intros id' Hne. rewrite !get_by_id_up. unfold upsert.
    by rewrite lookup_insert_ne.
Qed.

End RoundTrip.

(** ** The HTTP endpoints *)

Section ApiFacts.
Import VectorRetriever RetrievalApi.
Context {T : Text} {R : Retrieval} {H : Hashing}.
Variable retriever : VectorRetriever.t.

Lemma search_documents_too_long request (s : astate) :
  500 < Z.of_nat (length (query request)) ->
  search_documents retriever request s
  = (Raised (HTTPException 400 "query text too long (500 characters at most)"),
     mkAstate _ (a_calls s) (a_log s ++ [(INFO, "search request received")])).
Proof.
  intros Hlong. unfold search_documents, xtry, xbind, alog, xmodify.
  apply Z.ltb_lt in Hlong. by rewrite Hlong.
Qed.

Lemma search_documents_run request (s : astate) :
  Z.of_nat (length (query request)) <= 500 ->
  search_documents retriever request s
  = match retrieval_of retriever request (a_calls s) with
    | (Ok docs, cs') =>
        (Returned (format_result <$> first_top_k request docs),
         mkAstate _ cs' ((a_log s ++ [(INFO, "search request received")])
                           ++ [(INFO, "results returned")]))
    | (Raise _, cs') =>
        (Raised (HTTPException 500 "search service temporarily unavailable"),
         mkAstate _ cs' ((a_log s ++ [(INFO, "search request received")])
                           ++ [(ERROR, "search failed")]))
    end.
Proof.
  intros Hshort. unfold search_documents, xtry, xbind, alog, xmodify.
  destruct (Z.ltb_spec 500 (Z.of_nat (length (query request)))) as [|_]; [lia|].
  unfold xret, retrieval_of.
  destruct (given_keyword request || given_metadata request);
    unfold retrieve, from_core; simpl a_calls;
    match goal with
    | |- context [match ?m ?cs with _ => _ end] => by destruct (m cs) as [[docs|e] cs']
    end.
Qed.

(** Without a keyword the retrieval is the plain vector search, also when
    it goes through [hybrid_search] because of a metadata filter. *)
Lemma retrieval_without_keyword request cs :
  given_keyword request = false ->
  retrieval_of retriever request cs
  = similarity_search retriever (query request) (metadata_filter request) cs.
Proof.
  intros Hkw. unfold retrieval_of, given_keyword in *.
  destruct (_ || _); [|done].
  unfold hybrid_search.
  destruct (keyword_filter request) as [[|c kw]|]; [|done|]; apply bind_ret_r.
Qed.

Lemma first_top_k_bound request (docs : list Document) k :
  top_k request = Some k -> 0 <= k ->
  (length (first_top_k request docs) <= Z.to_nat k)%nat.
Proof.
  intros Hk Hpos. unfold first_top_k. rewrite Hk, slice_prefix by done.
  rewrite length_take. lia.
Qed.

Lemma first_top_k_sublist request (docs : list Document) :
  first_top_k request docs `sublist_of` docs.
Proof.
  unfold first_top_k. destruct (top_k request); [apply slice_sublist | done].
Qed.

Lemma first_top_k_all request (docs : list Document) (P : Document -> Prop) :
  Forall P docs -> Forall P (first_top_k request docs).
Proof.
  intros Hall. unfold first_top_k. destruct (top_k request); [|done].
  unfold slice. by apply Forall_take, Forall_drop.
Qed.

(** X11.  [search_documents] raises only HTTP errors 400 and 500: a query
    of more than 500 characters is refused with 400 before the retriever is
    called, and any failure of the retrieval becomes 500. *)
Theorem search_documents_status request (s : astate) :
  (500 < Z.of_nat (length (query request)) ->
   (search_documents retriever request s).1
   = Raised (HTTPException 400 "query text too long (500 characters at most)")
   /\ a_calls (search_documents retriever request s).2 = a_calls s)
  /\ (Z.of_nat (length (query request)) <= 500 ->
      forall e,
        (search_documents retriever request s).1 = Raised e ->
        e = HTTPException 500 "search service temporarily unavailable").
Proof.
  split.
  - intros Hlong. by rewrite search_documents_too_long.
  - intros Hshort e. rewrite search_documents_run by done.
    destruct (retrieval_of retriever request (a_calls s)) as [[docs|err] cs'];
      simpl; [done | by intros [= <-]].
Qed.

(** X12.  For a query of at most 500 characters without a keyword (absent
    or empty), whether or not a metadata filter sends the request through
    [hybrid_search], the answer is the result of [similarity_search] with
    that filter, cut to the first [top_k] of the request and formatted, or
    error 500 when it raises. *)
Theorem search_without_keyword request (s : astate) :
  given_keyword request = false ->
  Z.of_nat (length (query request)) <= 500 ->
  search_documents retriever request s
  = match similarity_search retriever (query request)
            (metadata_filter request) (a_calls s) with
    | (Ok docs, cs') =>
        (Returned (format_result <$> first_top_k request docs),
         mkAstate _ cs' ((a_log s ++ [(INFO, "search request received")])
                           ++ [(INFO, "results returned")]))
    | (Raise _, cs') =>
        (Raised (HTTPException 500 "search service temporarily unavailable"),
         mkAstate _ cs' ((a_log s ++ [(INFO, "search request received")])
                           ++ [(ERROR, "search failed")]))
    end.
Proof.
  intros Hkw Hshort.
  by rewrite search_documents_run, retrieval_without_keyword.
Qed.

(** X13.  With a non-empty keyword, every entry that [search_documents]
    returns has a content that contains the keyword, case ignored, and
    there are at most [top_k] of them, for the [top_k] of the retriever
    and for that of the request. *)
Theorem search_with_keyword request (s : astate) c kw results :
  keyword_filter request = Some (c :: kw) ->
  (search_documents retriever request s).1 = Returned results ->
  Forall (fun r => occurs_in (lower (c :: kw)) (lower (content r))) results
  /\ (0 <= VectorRetriever.top_k retriever ->
      (length results <= Z.to_nat (VectorRetriever.top_k retriever))%nat)
  /\ (forall k, top_k request = Some k -> 0 <= k ->
                (length results <= Z.to_nat k)%nat).
Proof.
  intros Hkw.
  destruct (Z.ltb_spec 500 (Z.of_nat (length (query request)))) as [Hlong | Hshort].
  { by rewrite search_documents_too_long. }
  rewrite search_documents_run by done.
  unfold retrieval_of, given_keyword. rewrite Hkw. cbn [orb]. cbv iota.
  pose proof (hybrid_search_results retriever (query request)
                (Some (c :: kw)) (metadata_filter request) (a_calls s)) as Hh.
  destruct (hybrid_search retriever (query request) (Some (c :: kw))
              (metadata_filter request) (a_calls s)) as [[docs|err] cs'];
    simpl in *; [|done].
  intros [= <-].
  destruct (Hh docs eq_refl) as (vr & _ & _ & Hdocs).
  destruct (Hdocs c kw eq_refl) as [Hall Hlen].
  pose proof (sublist_length _ _ (first_top_k_sublist request docs)) as Hsub.
  split_and!.
  - apply Forall_fmap. by apply first_top_k_all.
  - intros Hk. rewrite length_fmap. specialize (Hlen Hk). lia.
  - intros k Hk Hpos. rewrite length_fmap. by apply first_top_k_bound.
Qed.

(** X14.  [get_document] never answers 404: the only handler catches the
    404 raised for a missing document, so that every failure, a missing
    document included, is error 500; a document that is found is returned
    under the requested identifier with score 1.0. *)
Theorem get_document_never_404 (doc_id : Py.str) (s : astate) :
  (forall e,
      (get_document doc_id s).1 = Raised e ->
      e = HTTPException 500 "document retrieval failed")
  /\ ((get_by_id doc_id (a_calls s)).1 = Ok None ->
      (get_document doc_id s).1
      = Raised (HTTPException 500 "document retrieval failed"))
  /\ (forall d,
        (get_by_id doc_id (a_calls s)).1 = Ok (Some d) ->
        (get_document doc_id s).1
        = Returned (mkResponse doc_id (page_content d) (metadata d) ScoreOne)).
Proof.
  unfold get_document, xtry, xbind, retrieve, from_core. simpl a_calls.
  destruct (get_by_id doc_id (a_calls s)) as [[[d|]|err] cs']; simpl;
    split_and!; try done.
  - by intros e [= <-].
  - by intros d' [= <-].
  - by intros e [= <-].
Qed.

End ApiFacts.

(** ** Construction *)

Section InitFacts.
Import PyCall ChromaManagerInit.
Context {B : Backend}.

Lemma validate_init_params_cases server_type host port path (s : istate) :
  (valid_params server_type host port path = true ->
   _validate_init_params server_type host port path s = (Ok tt, s))
  /\ (valid_params server_type host port path = false ->
      exists msg,
        _validate_init_params server_type host port path s
        = (Raise (Exn ValueError msg), s)).
Proof.
  unfold valid_params, _validate_init_params.
  destruct (bool_decide (server_type = VStr (lit "local"))) eqn:Hl;
    destruct (bool_decide (server_type = VStr (lit "http"))) eqn:Hh;
    destruct (truthy path), (truthy host), (truthy port); simpl;
    split; intros Hv; try discriminate; try done; eauto.
  all: apply bool_decide_eq_true in Hl, Hh; rewrite Hl in Hh;
    vm_compute in Hh; discriminate.
Qed.

(** X15.  [_validate_init_params] accepts exactly a local store with a
    non-empty path or a server with a non-empty host and a non-zero port,
    and raises [ValueError] otherwise, changing nothing. *)
Theorem chroma_params_validation server_type host port path (s : istate) :
  (valid_params server_type host port path = true ->
   _validate_init_params server_type host port path s = (Ok tt, s))
  /\ (valid_params server_type host port path = false ->
      exists msg,
        _validate_init_params server_type host port path s
        = (Raise (Exn ValueError msg), s)).
Proof. apply validate_init_params_cases. Qed.

(** X16.  With parameters that are not valid, [ChromaManager.__init__]
    raises ([TypeError] for an unknown keyword, [ValueError] otherwise)
    before any client or store is created. *)
Theorem init_invalid_params kwargs (s : istate) :
  valid_params (arg params kwargs "chroma_server_type")
               (arg params kwargs "host") (arg params kwargs "port")
               (arg params kwargs "persist_path") = false ->
  (__init__ kwargs s).2 = s
  /\ ((exists msg, (__init__ kwargs s).1 = Raised (TypeError msg))
      \/ (exists msg, (__init__ kwargs s).1 = Raised (Core (Exn ValueError msg)))).
Proof.
  intros Hinvalid.
  destruct (proj2 (validate_init_params_cases _ _ _ _ s) Hinvalid) as [msg Hv].
  unfold __init__, xbind, check_keywords.
  destruct (List.find _ kwargs) as [kw|].
  - split; [done | left; eauto].
  - unfold xret, from_core, id, bind. rewrite Hv. simpl.
    split; [done | right; eauto].
Qed.

(** X17.  Construction in local mode with a path: one persistent client
    is created at the path, then the store under the default collection
    name ["langchain"] with the path as persistence directory; a failure of
    the client is raised as it is, a failure of the store as
    [RuntimeError]. *)
Theorem init_local path embed (s : istate) :
  truthy path = true ->
  __init__ [ ("chroma_server_type", VStr (lit "local"));
             ("persist_path", path); ("embed_model", embed) ] s
  = match new_persistent_client path with
    | Raise e =>
        (Raised (Core e),
         mkIstate (i_calls s ++ [NewPersistentClient path])
                  (i_log s ++ [(ERROR, "Chroma client creation failed")]))
    | Ok client =>
        match new_chroma (VStr (lit "langchain")) embed client path with
        | Raise _ =>
            (Raised (Core (Exn RuntimeError "Failed to initialize ChromaDB")),
             mkIstate ((i_calls s ++ [NewPersistentClient path])
                         ++ [NewChroma (VStr (lit "langchain")) embed path])
                      (i_log s ++ [(ERROR, "ChromaDB initialization failed")]))
        | Ok store =>
            (Returned (mk _ client (VStr (lit "langchain")) embed store),
             mkIstate ((i_calls s ++ [NewPersistentClient path])
                         ++ [NewChroma (VStr (lit "langchain")) embed path])
                      (i_log s ++ [(INFO, "ChromaDB initialized successfully")]))
        end
    end.
Proof.
  intros Hpath. unfold __init__, xbind, check_keywords. simpl List.find.
  unfold xret, from_core, id, arg. simpl lookup_kw. simpl default.
  unfold bind at 1, _validate_init_params. simpl. rewrite Hpath. simpl.
  unfold bind at 1, _create_client, try_except. simpl.
  unfold bind at 1, icall, modify, lift.
  destruct (new_persistent_client path) as [client|e]; simpl; [|done].
  unfold bind at 1. unfold bind at 1.
  by destruct (new_chroma (VStr (lit "langchain")) embed client path).
Qed.

(** X18.  Construction against a server with a host and a port: one HTTP
    client is created, then the store with no persistence directory; a
    failure of the client is raised as it is, a failure of the store as
    [RuntimeError]. *)
Theorem init_http host port (s : istate) :
  truthy host = true -> truthy port = true ->
  __init__ [ ("chroma_server_type", VStr (lit "http"));
             ("host", host); ("port", port) ] s
  = match new_http_client host port with
    | Raise e =>
        (Raised (Core e),
         mkIstate (i_calls s ++ [NewHttpClient host port])
                  (i_log s ++ [(ERROR, "Chroma client creation failed")]))
    | Ok client =>
        match new_chroma (VStr (lit "langchain")) VNone client VNone with
        | Raise _ =>
            (Raised (Core (Exn RuntimeError "Failed to initialize ChromaDB")),
             mkIstate ((i_calls s ++ [NewHttpClient host port])
                         ++ [NewChroma (VStr (lit "langchain")) VNone VNone])
                      (i_log s ++ [(ERROR, "ChromaDB initialization failed")]))
        | Ok store =>
            (Returned (mk _ client (VStr (lit "langchain")) VNone store),
             mkIstate ((i_calls s ++ [NewHttpClient host port])
                         ++ [NewChroma (VStr (lit "langchain")) VNone VNone])
                      (i_log s ++ [(INFO, "ChromaDB initialized successfully")]))
        end
    end.
Proof.
  intros Hhost Hport. unfold __init__, xbind, check_keywords. simpl List.find.
  unfold xret, from_core, id, arg. simpl lookup_kw. simpl default.
  unfold bind at 1, _validate_init_params. simpl. rewrite Hhost, Hport. simpl.
  unfold bind at 1, _create_client, try_except. simpl.
  unfold bind at 1, icall, modify, lift.
  destruct (new_http_client host port) as [client|e]; simpl; [|done].
  unfold bind at 1. unfold bind at 1.
  by destruct (new_chroma (VStr (lit "langchain")) VNone client VNone).
Qed.

End InitFacts.

Section ObjectFacts.
Import PyCall ChromaManagerInit.
Context {B : Backend} {F : PDFProcessorInit.FileSystem}.

(** X19.  [PDFProcessor.__init__] raises [TypeError] whatever its
    arguments, before anything else happens: it passes the keyword
    [embedding_function], which [ChromaManager.__init__] does not
    declare. *)
Theorem pdf_processor_init_fails directory chroma_server_type persist_path
    embedding_function file_group_num batch_num chunksize overlap (s : istate) :
  PDFProcessorInit.__init__ directory chroma_server_type persist_path
    embedding_function file_group_num batch_num chunksize overlap s
  = (Raised (TypeError
               "ChromaManager.__init__() got an unexpected keyword argument"),
     s).
Proof. done. Qed.

(** X20.  [VectorRetriever.__init__] raises [TypeError] whatever its
    arguments, for the same undeclared keyword, so that
    [initialize_retriever] of the API never returns: it logs one error and
    re-raises that [TypeError], or the error of the model loading. *)
Theorem retriever_init_fails chroma_server_type persist_path
    collection_name embedding_function top_k (loaded : result pyval)
    (s : istate) :
  VectorRetrieverInit.__init__ chroma_server_type persist_path collection_name
    embedding_function top_k s
  = (Raised (TypeError
               "ChromaManager.__init__() got an unexpected keyword argument"),
     s)
  /\ VectorRetrieverInit.initialize_retriever loaded s
     = (Raised (match loaded with
                | Ok _ =>
                    TypeError
                      "ChromaManager.__init__() got an unexpected keyword argument"
                | Raise e => Core e
                end),
        mkIstate (i_calls s)
                 (i_log s ++ [(ERROR, "retriever initialization failed")])).
Proof. split; [done | by destruct loaded]. Qed.

End ObjectFacts.

(** ** Embedding models and the Qwen client *)

Section EmbeddingFacts.
Import PyCall EmbeddingUtils.
Context {P : Providers}.

Lemma load_embedding_model_missing_key kwargs (cs : list ecall) :
  env_set "OPENAI_API_KEY" = false ->
  load_embedding_model (lit "openai") kwargs cs
  = (Raise (Exn ValueError "OpenAI API key is not configured"), cs).
Proof.
  intros Hkey. unfold load_embedding_model. by rewrite Hkey.
Qed.

(** X21.  A model type other than the three known ones raises
    [RuntimeError], the [ValueError] raised for it being caught by the
    function's own handler, and no model is built. *)
Theorem load_embedding_model_unknown model_type kwargs (cs : list ecall) :
  known_model_type model_type = false ->
  load_embedding_model model_type kwargs cs
  = (Raise (Exn RuntimeError "loading the model failed"), cs).
Proof.
  unfold known_model_type, load_embedding_model. intros Hunknown.
  apply orb_false_iff in Hunknown as [Hunknown Ho].
  apply orb_false_iff in Hunknown as [Hh Hs].
  by rewrite Ho, Hh, Hs.
Qed.

(** The exceptions that leave [load_embedding_model]. *)
Lemma load_embedding_model_raise_cases model_type kwargs (cs : list ecall) e :
  (load_embedding_model model_type kwargs cs).1 = Raise e ->
  (e = Exn ValueError "OpenAI API key is not configured"
   /\ model_type = lit "openai" /\ env_set "OPENAI_API_KEY" = false
   /\ (load_embedding_model model_type kwargs cs).2 = cs)
  \/ (e = Exn RuntimeError "loading the model failed"
      /\ (model_type = lit "openai" -> env_set "OPENAI_API_KEY" = true)).
Proof.
  unfold load_embedding_model.
  destruct (bool_decide (model_type = lit "openai")) eqn:Ho;
    destruct (env_set "OPENAI_API_KEY") eqn:Hk; simpl.
  - unfold try_except.
    match goal with
    | |- context [match ?m cs with _ => _ end] => destruct (m cs) as [[a|e'] cs']
    end; simpl; [done|]. intros [= <-]. by right.
  - intros [= <-]. left. apply bool_decide_eq_true in Ho. by split_and!.
  - unfold try_except.
    match goal with
    | |- context [match ?m cs with _ => _ end] => destruct (m cs) as [[a|e'] cs']
    end; simpl; [done|]. intros [= <-]. right. split; [done|].
    intros ->. by rewrite bool_decide_eq_true_2 in Ho.
  - unfold try_except.
    match goal with
    | |- context [match ?m cs with _ => _ end] => destruct (m cs) as [[a|e'] cs']
    end; simpl; [done|]. intros [= <-]. right. split; [done|].
    intros ->. by rewrite bool_decide_eq_true_2 in Ho.
Qed.

(** X22.  [load_embedding_model] raises [ValueError] exactly for the type
    ["openai"] without an API key in the environment, before building
    anything; every other exception that leaves it is [RuntimeError]. *)
Theorem load_embedding_model_raises model_type kwargs (cs : list ecall) :
  (forall e,
      (load_embedding_model model_type kwargs cs).1 = Raise e ->
      (e = Exn ValueError "OpenAI API key is not configured"
       /\ model_type = lit "openai" /\ env_set "OPENAI_API_KEY" = false
       /\ (load_embedding_model model_type kwargs cs).2 = cs)
      \/ (e = Exn RuntimeError "loading the model failed"
          /\ (model_type = lit "openai" -> env_set "OPENAI_API_KEY" = true)))
  /\ (model_type = lit "openai" -> env_set "OPENAI_API_KEY" = false ->
      load_embedding_model model_type kwargs cs
      = (Raise (Exn ValueError "OpenAI API key is not configured"), cs)).
Proof.
  split.
  - apply load_embedding_model_raise_cases.
  - intros -> Hkey. by apply load_embedding_model_missing_key.
Qed.

End EmbeddingFacts.

Section QwenFacts.
Import QwenClient.
Context {Q : Env}.

Lemma load_qwen_config_run (s : qstate) :
  (load_qwen_config s).1 = Ok (conf_exists && negb (is_raise load_dotenv))
  /\ q_calls (load_qwen_config s).2
     = q_calls s ++ (if conf_exists then [LoadDotenv] else []).
Proof.
  unfold load_qwen_config, try_except, bind, qcalled, qlog, modify, lift, ret.
  destruct conf_exists; simpl; [|by rewrite app_nil_r].
  by destruct load_dotenv.
Qed.

(** X23.  [load_qwen_config] never raises: it returns [True] exactly when
    the configuration file exists and was loaded, and reads the file only
    when it exists. *)
Theorem load_qwen_config_spec (s : qstate) :
  (load_qwen_config s).1 = Ok (conf_exists && negb (is_raise load_dotenv))
  /\ q_calls (load_qwen_config s).2
     = q_calls s ++ (if conf_exists then [LoadDotenv] else []).
Proof. apply load_qwen_config_run. Qed.

(** X24.  When the configuration file is missing or cannot be loaded,
    [get_qwen_models] raises [RuntimeError] without building any model. *)
Theorem get_qwen_models_without_config (s : qstate) :
  conf_exists && negb (is_raise load_dotenv) = false ->
  (get_qwen_models s).1
  = Raise (Exn RuntimeError "Qwen configuration loading failed")
  /\ q_calls (get_qwen_models s).2
     = q_calls s ++ (if conf_exists then [LoadDotenv] else []).
Proof.
  intros Hconf. destruct (load_qwen_config_run s) as [Hr Hc].
  unfold get_qwen_models, bind.
  destruct (load_qwen_config s) as [[loaded|e] s1]; simpl in *; [|done].
  injection Hr as ->. by rewrite Hconf.
Qed.

(** X25.  With the configuration loaded, [get_qwen_models] builds the
    LLM, the chat model and the embedding model in that order, stops at the
    first one that fails, and returns the three of them or raises
    [RuntimeError]. *)
Theorem get_qwen_models_with_config (s : qstate) :
  conf_exists = true -> is_raise load_dotenv = false ->
  (get_qwen_models s).1
  = match new_tongyi, new_chat_tongyi, new_dashscope_embeddings with
    | Ok llm, Ok chat, Ok embed => Ok (llm, chat, embed)
    | _, _, _ => Raise (Exn RuntimeError "Model initialization failed")
    end
  /\ q_calls (get_qwen_models s).2
     = q_calls s ++ [LoadDotenv; NewTongyi]
       ++ match new_tongyi with
          | Ok _ =>
              NewChatTongyi
                :: match new_chat_tongyi with
                   | Ok _ => [NewDashScopeEmbeddings]
                   | Raise _ => []
                   end
          | Raise _ => []
          end.
Proof.
  intros Hconf Hdot.
  unfold get_qwen_models, load_qwen_config, try_except, bind, qcalled, qlog,
    modify, lift, ret.
  rewrite Hconf. simpl. destruct load_dotenv; [|done]. simpl.
  destruct new_tongyi; simpl; [|by rewrite <- !app_assoc].
  destruct new_chat_tongyi; simpl; [|by rewrite <- !app_assoc].
  destruct new_dashscope_embeddings; simpl; by rewrite <- !app_assoc.
Qed.

End QwenFacts.

(** ** Runs on concrete collaborators *)

Lemma similarity_search_in_order_witness :
  (@VectorRetriever.similarity_search Fixture.test_collection
     Fixture.test_retriever (lit "混凝土强度") None []).1
  = Ok [Fixture.doc "混凝土强度标准"; Fixture.doc "钢筋检测规范";
        Fixture.doc "施工安全要求"].
Proof.
  apply (@similarity_search_in_order Fixture.test_collection
           Fixture.test_retriever (lit "混凝土强度") None [] tt
           Fixture.three_results
           [lit "id1"; lit "id2"; lit "id3"]
           [lit "混凝土强度标准"; lit "钢筋检测规范"; lit "施工安全要求"]
           [Some ∅; Some ∅; Some ∅]); by vm_compute.
Defined.

Lemma similarity_search_misaligned_witness :
  (@VectorRetriever.similarity_search Samples.short_collection
     Fixture.test_retriever (lit "混凝土强度") None []).1
  = Raise (Exn IndexError "list index out of range").
Proof.
  apply (@similarity_search_misaligned Samples.short_collection
           Fixture.test_retriever (lit "混凝土强度") None [] tt
           Samples.short_answer
           [lit "id1"; lit "id2"; lit "id3"] [lit "doc1"; lit "doc2"]
           [Some ∅; Some ∅; Some ∅]); try by vm_compute.
  left. vm_compute. lia.
Defined.

Lemma hybrid_search_within_vector_results_witness :
  exists vector_results,
    (@VectorRetriever.similarity_search Fixture.test_collection
       Fixture.test_retriever (lit "施工标准") None []).1 = Ok vector_results
    /\ [Fixture.doc "混凝土强度标准"] `sublist_of` vector_results.
Proof.
  destruct (@hybrid_search_within_vector_results Fixture.ascii_text
              Fixture.test_collection Fixture.test_retriever (lit "施工标准")
              (Some (lit "混凝土")) None [] [Fixture.doc "混凝土强度标准"])
    as (vr & Hvr & Hsub & _); [by vm_compute|].
  by exists vr.
Defined.

Lemma insert_docs_nonpositive_batch_witness :
  (@PDFProcessor.insert_docs_chromadb Fixture.open_store Fixture.seven_docs (-6)
     (@Fixture.empty_world Fixture.open_store [])).1 = Ok tt
  /\ w_calls (@PDFProcessor.insert_docs_chromadb Fixture.open_store
                Fixture.seven_docs (-6)
                (@Fixture.empty_world Fixture.open_store [])).2 = [].
Proof.
  destruct (@insert_docs_nonpositive_batch Fixture.open_store
              Fixture.seven_docs (-6)
              (@Fixture.empty_world Fixture.open_store []))
    as (Hcalls & _ & _ & Hneg & _); [lia|].
  split; [apply Hneg; [done | lia] | exact Hcalls].
Defined.

Lemma process_pdfs_nonpositive_group_witness :
  (@PDFProcessor.process_pdfs Fixture.ascii_text Fixture.one_unreadable
     (Fixture.processor (-1) 6)
     (@Fixture.empty_world Fixture.one_unreadable [])).1 = Ok tt
  /\ w_calls (@PDFProcessor.process_pdfs Fixture.ascii_text
                Fixture.one_unreadable (Fixture.processor (-1) 6)
                (@Fixture.empty_world Fixture.one_unreadable [])).2 = [].
Proof.
  destruct (@process_pdfs_nonpositive_group Fixture.ascii_text
              Fixture.one_unreadable (Fixture.processor (-1) 6)
              (@Fixture.empty_world Fixture.one_unreadable [])
              [lit "pdfs/a.pdf"; lit "pdfs/b.PDF"])
    as (Hcalls & _ & _ & Hneg); [by vm_compute | by vm_compute |].
  split; [apply Hneg; by vm_compute | exact Hcalls].
Defined.

Lemma group_load_failure_writes_nothing_witness :
  w_calls (@PDFProcessor.process_pdfs_group Fixture.one_unreadable
             (Fixture.processor 2 6) [lit "pdfs/a.pdf"; lit "pdfs/b.PDF"]
             (@Fixture.empty_world Fixture.one_unreadable [])).2
  = [LoaderLoad (lit "pdfs/a.pdf") false].
Proof.
  rewrite (@group_load_failure_writes_nothing Fixture.one_unreadable
             (Fixture.processor 2 6) [lit "pdfs/a.pdf"; lit "pdfs/b.PDF"]
             (@Fixture.empty_world Fixture.one_unreadable [])).
  - by vm_compute.
  - apply Exists_cons_hd. by vm_compute.
Defined.

Lemma process_pdfs_group_success_witness :
  (@PDFProcessor.process_pdfs_group Samples.two_files (Fixture.processor 80 2)
     Samples.both_files (@Fixture.empty_world Samples.two_files [])).1 = Ok tt
  /\ writes (w_calls (@PDFProcessor.process_pdfs_group Samples.two_files
                        (Fixture.processor 80 2) Samples.both_files
                        (@Fixture.empty_world Samples.two_files [])).2)
     = [[Fixture.doc "page one"; Fixture.doc "page two"];
        [Fixture.doc "page three"]].
Proof.
  destruct (@process_pdfs_group_success Samples.two_files
              (Fixture.processor 80 2) Samples.both_files
              (@Fixture.empty_world Samples.two_files [])
              (fun pages => Ok pages)
              [Fixture.doc "page one"; Fixture.doc "page two";
               Fixture.doc "page three"]) as [Hr Hcalls].
  - repeat (constructor; [by vm_compute|]). constructor.
  - by vm_compute.
  - done.
  - by vm_compute.
  - done.
  - done.
  - intros s batch _. simpl.
    replace (existsb (fun _ => false) batch) with false; [done|].
    induction batch as [|d batch IH]; [done | exact IH].
  - split; [exact Hr|]. rewrite Hcalls. by vm_compute.
Defined.

Lemma add_documents_bad_input_witness :
  (@ChromaManager.add_documents Fixture.open_store (ChromaManager.Others 1)
     (@Fixture.empty_world Fixture.open_store [])).1
  = Raise (Exn RuntimeError "Document addition failed").
Proof.
  rewrite (@add_documents_bad_input Fixture.open_store
             (ChromaManager.Others 1)
             (@Fixture.empty_world Fixture.open_store [])); [done|].
  left. by exists O.
Defined.

Lemma add_documents_strings_witness :
  (@ChromaManager.add_documents Fixture.open_store
     (ChromaManager.Strings [lit "Test document 1"; lit "Test document 2"])
     (@Fixture.empty_world Fixture.open_store [])).1
  = Ok [[0%N]; [1%N]].
Proof.
  rewrite (proj1 (@add_documents_strings Fixture.open_store
                    [lit "Test document 1"; lit "Test document 2"]
                    (@Fixture.empty_world Fixture.open_store [])
                    ltac:(done))).
  by vm_compute.
Defined.

Lemma get_by_id_after_upsert_witness :
  (@VectorRetriever.get_by_id
     (Collection.backend true
        (Collection.upsert (lit "id1") (lit "text") None ∅)
        (fun _ _ => Fixture.three_results)) (lit "id2") []).1
  = (@VectorRetriever.get_by_id
       (Collection.backend true ∅ (fun _ _ => Fixture.three_results))
       (lit "id2") []).1.
Proof.
  apply (proj2 (get_by_id_after_upsert ∅ (fun _ _ => Fixture.three_results)
                  (lit "id1") (lit "text") None)).
  by vm_compute.
Defined.

Lemma search_documents_status_witness :
  (@RetrievalApi.search_documents Fixture.ascii_text Fixture.test_collection
     Samples.hashing Fixture.test_retriever Samples.long_request
     Samples.fresh).1
  = Raised (HTTPException 400 "query text too long (500 characters at most)").
Proof.
  apply (proj1 (@search_documents_status Fixture.ascii_text
                  Fixture.test_collection Samples.hashing
                  Fixture.test_retriever Samples.long_request Samples.fresh)).
  by vm_compute.
Defined.

Lemma search_without_keyword_witness :
  (@RetrievalApi.search_documents Fixture.ascii_text Fixture.test_collection
     Samples.hashing Fixture.test_retriever Samples.plain_request
     Samples.fresh).1
  = Returned
      [RetrievalApi.mkResponse (lit "混凝土强度标准") (lit "混凝土强度标准") ∅
         RetrievalApi.ScoreZero;
       RetrievalApi.mkResponse (lit "钢筋检测规范") (lit "钢筋检测规范") ∅
         RetrievalApi.ScoreZero].
Proof.
  rewrite (@search_without_keyword Fixture.ascii_text Fixture.test_collection
             Samples.hashing Fixture.test_retriever Samples.plain_request
             Samples.fresh); by vm_compute.
Defined.

Lemma search_with_keyword_witness :
  Forall (fun r => occurs_in (@lower Fixture.ascii_text (lit "混凝土"))
                     (@lower Fixture.ascii_text (RetrievalApi.content r)))
         [RetrievalApi.mkResponse (lit "混凝土强度标准") (lit "混凝土强度标准") ∅
            RetrievalApi.ScoreZero].
Proof.
  apply (@search_with_keyword Fixture.ascii_text Fixture.test_collection
           Samples.hashing Fixture.test_retriever Samples.keyword_request
           Samples.fresh 28151%N [20957%N; 22303%N]); by vm_compute.
Defined.

Lemma get_document_never_404_witness :
  (@RetrievalApi.get_document Fixture.test_collection (lit "id9")
     Samples.fresh).1
  = Raised (HTTPException 500 "document retrieval failed").
Proof.
  apply (proj1 (proj2 (@get_document_never_404 Fixture.test_collection
                         (lit "id9") Samples.fresh))).
  by vm_compute.
Defined.

Lemma chroma_params_validation_witness :
  @ChromaManagerInit._validate_init_params
    (PyCall.VStr (lit "local")) (PyCall.VStr (lit "localhost"))
    (PyCall.VInt 8000) (PyCall.VStr (lit "chroma_db"))
    (ChromaManagerInit.mkIstate [] [])
  = (Ok tt, ChromaManagerInit.mkIstate [] []).
Proof.
  apply (proj1 (chroma_params_validation _ _ _ _ _)). by vm_compute.
Defined.

Lemma init_invalid_params_witness :
  (@ChromaManagerInit.__init__ Samples.backend
     [("chroma_server_type", PyCall.VStr (lit "ftp"))]
     (ChromaManagerInit.mkIstate [] [])).2
  = ChromaManagerInit.mkIstate [] [].
Proof.
  apply (@init_invalid_params Samples.backend). by vm_compute.
Defined.

Lemma init_local_witness :
  (@ChromaManagerInit.__init__ Samples.backend
     [("chroma_server_type", PyCall.VStr (lit "local"));
      ("persist_path", PyCall.VStr (lit "db"));
      ("embed_model", PyCall.VObj 0)]
     (ChromaManagerInit.mkIstate [] [])).2
  = ChromaManagerInit.mkIstate
      [ChromaManagerInit.NewPersistentClient (PyCall.VStr (lit "db"));
       ChromaManagerInit.NewChroma (PyCall.VStr (lit "langchain"))
         (PyCall.VObj 0) (PyCall.VStr (lit "db"))]
      [(INFO, "ChromaDB initialized successfully")].
Proof.
  rewrite (@init_local Samples.backend (PyCall.VStr (lit "db")) (PyCall.VObj 0));
    by vm_compute.
Defined.

Lemma init_http_witness :
  (@ChromaManagerInit.__init__ Samples.backend
     [("chroma_server_type", PyCall.VStr (lit "http"));
      ("host", PyCall.VStr (lit "localhost")); ("port", PyCall.VInt 8000)]
     (ChromaManagerInit.mkIstate [] [])).2
  = ChromaManagerInit.mkIstate
      [ChromaManagerInit.NewHttpClient (PyCall.VStr (lit "localhost"))
         (PyCall.VInt 8000);
       ChromaManagerInit.NewChroma (PyCall.VStr (lit "langchain"))
         PyCall.VNone PyCall.VNone]
      [(INFO, "ChromaDB initialized successfully")].
Proof.
  rewrite (@init_http Samples.backend (PyCall.VStr (lit "localhost"))
             (PyCall.VInt 8000)); by vm_compute.
Defined.

Lemma load_embedding_model_raises_witness :
  @EmbeddingUtils.load_embedding_model (Samples.providers None)
    (lit "openai") [] []
  = (Raise (Exn ValueError "OpenAI API key is not configured"), []).
Proof.
  apply (proj2 (@load_embedding_model_raises (Samples.providers None)
                  (lit "openai") [] [])); by vm_compute.
Defined.

Lemma load_embedding_model_unknown_witness :
  @EmbeddingUtils.load_embedding_model (Samples.providers None)
    (lit "invalid_type") [] []
  = (Raise (Exn RuntimeError "loading the model failed"), []).
Proof.
  apply (@load_embedding_model_unknown (Samples.providers None)).
  by vm_compute.
Defined.

Lemma get_qwen_models_without_config_witness :
  (@QwenClient.get_qwen_models (Samples.qwen false)
     (QwenClient.mkQstate [] [])).1
  = Raise (Exn RuntimeError "Qwen configuration loading failed").
Proof.
  apply (@get_qwen_models_without_config (Samples.qwen false)).
  by vm_compute.
Defined.

Lemma get_qwen_models_with_config_witness :
  QwenClient.q_calls
    (@QwenClient.get_qwen_models (Samples.qwen true)
       (QwenClient.mkQstate [] [])).2
  = [QwenClient.LoadDotenv; QwenClient.NewTongyi; QwenClient.NewChatTongyi;
     QwenClient.NewDashScopeEmbeddings].
Proof.
  rewrite (proj2 (@get_qwen_models_with_config (Samples.qwen true)
                    (QwenClient.mkQstate [] []) eq_refl eq_refl)).
  by vm_compute.
Defined.
